(** * File storage service: handlers over a directory and an in-memory index

    A shallow embedding of [src/index.js]: an Express application whose
    route handlers read and write one upload directory through Node's [fs]
    module and keep per-file metadata in a process-wide [Map] called
    [fileMetadata].

    Conventions of the embedding.
    - A JavaScript string is a sequence of UTF-16 code units; a [string]
      here is such a sequence with every code unit below 256.
    - A JavaScript number that the handlers compute with (a file size, a
      time value, the result of [parseInt]) is an integer or NaN and is
      modelled as [option Z] with [None] for NaN; file sizes and time values
      are far below 2^53, where doubles are exact.
    - A thrown exception is the [Throw] case of [Result]; mutable state
      (the file system and [fileMetadata]) is threaded explicitly and, as in
      JavaScript, survives a throw.
    - Requests are handled one after the other.  The calls to the logger,
      the CORS and body-parsing middleware and the routing table are left
      out: a handler is a function of its request, of what the host answers
      during the request, and of the shared state. *)

From Stdlib Require Import ZArith QArith String Ascii List Bool Lia.
From stdpp Require Import base option list strings gmap pretty.

Local Open Scope string_scope.
Local Open Scope list_scope.
Local Open Scope Z_scope.
#[local] Set Warnings "-register-all".

(** ** ECMAScript built-ins used by the handlers *)

Module JS.

(** Strings as lists of code units. *)
Definition chars (s : string) : list ascii := list_ascii_of_string s.
Definition str (cs : list ascii) : string := string_of_list_ascii cs.

Definition code (c : ascii) : Z := Z.of_N (N_of_ascii c).

(** [String.prototype.toLowerCase], on code units below 256: the
    upper-case letters there are A-Z and U+00C0-U+00DE without U+00D7. *)
Definition lower_char (c : ascii) : ascii :=
  let n := code c in
  if ((65 <=? n) && (n <=? 90)) || ((192 <=? n) && (n <=? 222) && negb (n =? 215))
  then ascii_of_N (Z.to_N (n + 32))
  else c.

Definition toLowerCase (s : string) : string := str (map lower_char (chars s)).

(** [hay.includes(needle)]: [needle] occurs in [hay] as a contiguous run. *)
Fixpoint starts_with (needle hay : list ascii) : bool :=
  match needle, hay with
  | [], _ => true
  | _ :: _, [] => false
  | a :: needle', b :: hay' => Ascii.eqb a b && starts_with needle' hay'
  end.

Fixpoint includes_chars (hay needle : list ascii) : bool :=
  starts_with needle hay ||
  match hay with
  | [] => false
  | _ :: hay' => includes_chars hay' needle
  end.

Definition includes (hay needle : string) : bool :=
  includes_chars (chars hay) (chars needle).

(** Truthiness of a value that is a string or [undefined]: only the empty
    string and [undefined] are falsy. *)
Definition truthy (s : option string) : bool :=
  match s with
  | Some s => negb (String.eqb s "")
  | None => false
  end.

(** The string that a test [v && ...] goes on with, when [v] is truthy. *)
Definition truthy_value (s : option string) : option string :=
  if truthy s then s else None.

(** *** [parseInt(string)] with no radix argument

    Leading white space is skipped, one sign is read, a [0x]/[0X] prefix
    selects radix 16, and the longest run of digits of the radix is the
    value; no digit at all gives NaN. *)
Definition is_white_space (c : ascii) : bool :=
  let n := code c in
  ((9 <=? n) && (n <=? 13)) || (n =? 32) || (n =? 160).

Fixpoint skip_white_space (cs : list ascii) : list ascii :=
  match cs with
  | c :: cs' => if is_white_space c then skip_white_space cs' else cs
  | [] => []
  end.

Definition digit_value (radix : Z) (c : ascii) : option Z :=
  let n := code c in
  let v :=
    if (48 <=? n) && (n <=? 57) then n - 48
    else if (97 <=? n) && (n <=? 122) then n - 87
    else if (65 <=? n) && (n <=? 90) then n - 55
    else radix in
  if v <? radix then Some v else None.

(** The value of the longest digit prefix, [None] when it is empty. *)
Fixpoint digits_prefix (radix : Z) (acc : option Z) (cs : list ascii) : option Z :=
  match cs with
  | c :: cs' =>
      match digit_value radix c with
      | Some d => digits_prefix radix (Some (radix * default 0 acc + d)) cs'
      | None => acc
      end
  | [] => acc
  end.

Definition strip_sign (cs : list ascii) : Z * list ascii :=
  match cs with
  | c :: cs' =>
      if Ascii.eqb c "-"%char then (-1, cs')
      else if Ascii.eqb c "+"%char then (1, cs')
      else (1, cs)
  | [] => (1, [])
  end.

Definition strip_prefix (cs : list ascii) : Z * list ascii :=
  match cs with
  | c0 :: c1 :: cs' =>
      if Ascii.eqb c0 "0"%char && (Ascii.eqb c1 "x"%char || Ascii.eqb c1 "X"%char)
      then (16, cs')
      else (10, cs)
  | _ => (10, cs)
  end.

Definition parseInt (s : string) : option Z :=
  let '(sign, cs) := strip_sign (skip_white_space (chars s)) in
  let '(radix, cs) := strip_prefix cs in
  (fun v => sign * v) <$> digits_prefix radix None cs.

(** The relational operators on numbers: a comparison with NaN is false. *)
Definition lt (a b : option Z) : bool :=
  match a, b with
  | Some x, Some y => x <? y
  | _, _ => false
  end.

Definition gt (a b : option Z) : bool := lt b a.

(** [Number + string]: the decimal rendering of an integer. *)
Definition number_to_string (n : Z) : string := pretty n.

End JS.

(** ** JSON values, [JSON.stringify] and object spread *)

Module Json.
Import JS.

(** A value that [JSON.parse] can return.  A number is carried as its
    [Number::toString] rendering, which is all that [JSON.stringify] and
    object spread, the only operations applied to it here, can observe. *)
Inductive JSValue : Type :=
| JNull
| JBool (b : bool)
| JNum (text : string)
| JStr (s : string)
| JArr (items : list JSValue)
| JObj (props : list (string * JSValue)).

Definition dquote : ascii := ascii_of_N 34.
Definition backslash : ascii := ascii_of_N 92.

Definition hex_digit (n : Z) : ascii :=
  ascii_of_N (Z.to_N (if n <? 10 then 48 + n else 87 + n)).

(** [QuoteJSONString], one code unit at a time. *)
Definition quote_char (c : ascii) : list ascii :=
  let n := code c in
  if n =? 8 then [backslash; "b"%char]
  else if n =? 9 then [backslash; "t"%char]
  else if n =? 10 then [backslash; "n"%char]
  else if n =? 12 then [backslash; "f"%char]
  else if n =? 13 then [backslash; "r"%char]
  else if n =? 34 then [backslash; dquote]
  else if n =? 92 then [backslash; backslash]
  else if n <? 32 then
    [backslash; "u"%char; "0"%char; "0"%char; hex_digit (n / 16); hex_digit (n mod 16)]
  else [c].

Definition quote (s : string) : list ascii :=
  dquote :: flat_map quote_char (chars s) ++ [dquote].

Definition finite_number (text : string) : bool :=
  negb (String.eqb text "Infinity" || String.eqb text "-Infinity" || String.eqb text "NaN").

Fixpoint stringify_chars (v : JSValue) : list ascii :=
  match v with
  | JNull => chars "null"
  | JBool true => chars "true"
  | JBool false => chars "false"
  | JNum text => if finite_number text then chars text else chars "null"
  | JStr s => quote s
  | JArr items =>
      let fix elements (l : list JSValue) : list ascii :=
        match l with
        | [] => []
        | [x] => stringify_chars x
        | x :: l' => stringify_chars x ++ ","%char :: elements l'
        end in
      "["%char :: elements items ++ ["]"%char]
  | JObj props =>
      let fix members (l : list (string * JSValue)) : list ascii :=
        match l with
        | [] => []
        | [(k, x)] => quote k ++ ":"%char :: stringify_chars x
        | (k, x) :: l' => quote k ++ ":"%char :: stringify_chars x ++ ","%char :: members l'
        end in
      "{"%char :: members props ++ ["}"%char]
  end.

(** [JSON.stringify(v)] for a JSON value [v]. *)
Definition stringify (v : JSValue) : string := str (stringify_chars v).

(** *** Ordinary objects as ordered property lists

    The own keys of an object are enumerated with the array indices first,
    in ascending order, then the other keys in creation order. *)
Definition array_index (k : string) : option Z :=
  match digits_prefix 10 None (chars k) with
  | Some n =>
      if String.eqb (number_to_string n) k && (n <? 4294967295) then Some n else None
  | None => None
  end.

Definition goes_before (k k' : string) : bool :=
  match array_index k, array_index k' with
  | Some i, Some j => i <? j
  | Some _, None => true
  | None, _ => false
  end.

Definition keys (props : list (string * JSValue)) : list string := map fst props.

Definition has_key (k : string) (props : list (string * JSValue)) : bool :=
  existsb (fun p => String.eqb k (fst p)) props.

Fixpoint replace_prop (k : string) (v : JSValue) (props : list (string * JSValue))
  : list (string * JSValue) :=
  match props with
  | [] => []
  | (k', v') :: props' =>
      if String.eqb k k' then (k, v) :: props' else (k', v') :: replace_prop k v props'
  end.

Fixpoint add_prop (k : string) (v : JSValue) (props : list (string * JSValue))
  : list (string * JSValue) :=
  match props with
  | [] => [(k, v)]
  | (k', v') :: props' =>
      if goes_before k k' then (k, v) :: (k', v') :: props'
      else (k', v') :: add_prop k v props'
  end.

(** [CreateDataProperty]: an existing key keeps its place and takes the
    new value, a new key is added. *)
Definition set_prop (k : string) (v : JSValue) (props : list (string * JSValue))
  : list (string * JSValue) :=
  if has_key k props then replace_prop k v props else add_prop k v props.

(** The value of key [k] in a property list read as a sequence of
    definitions: the last definition of [k] is its value. *)
Fixpoint get_prop (k : string) (props : list (string * JSValue)) : option JSValue :=
  match props with
  | [] => None
  | (k', v) :: props' =>
      match get_prop k props' with
      | Some w => Some w
      | None => if String.eqb k k' then Some v else None
      end
  end.

Fixpoint indexed {A : Type} (i : Z) (l : list A) : list (string * A) :=
  match l with
  | [] => []
  | x :: l' => (number_to_string i, x) :: indexed (i + 1) l'
  end.

(** The own enumerable properties that [...v] copies: the properties of
    an object, the elements of an array, the code units of a string, and
    nothing for [null], a boolean or a number. *)
Definition own_props (v : JSValue) : list (string * JSValue) :=
  match v with
  | JObj props => props
  | JArr items => indexed 0 items
  | JStr s => indexed 0 (map (fun c => JStr (str [c])) (chars s))
  | JNull | JBool _ | JNum _ => []
  end.

Definition define_all (defs props : list (string * JSValue)) : list (string * JSValue) :=
  fold_left (fun o p => set_prop (fst p) (snd p) o) defs props.

(** The object literal [{...a, ...b}]. *)
Definition spread2 (a b : JSValue) : JSValue :=
  JObj (define_all (own_props b) (define_all (own_props a) [])).

End Json.

(** ** The host: file system, clock and the two parsers left to the engine *)

(** [JSON.parse] and [Date.parse] are supplied by the engine.  [JSON_parse]
    returns [None] where [JSON.parse] throws a [SyntaxError]; [Date_parse]
    returns the time value of [new Date(string)], [None] for an invalid
    date.  Which non-ISO strings [Date.parse] accepts is left to the engine
    by ECMAScript, so every result below is stated for an arbitrary pair. *)
Class Builtins : Type := {
  JSON_parse : string -> option Json.JSValue;
  Date_parse : string -> option Z
}.

(** What [fs.statSync] reports for a regular file. *)
Record Stats : Type := {
  stat_size : Z;
  birthtime : Z;
  mtime : Z
}.

(** A directory lists its regular files in enumeration order. *)
Abbreviation Dir := (list (string * Stats)).

(** The record kept in [fileMetadata] for one stored file. *)
Record Metadata : Type := {
  size : Z;
  created : Z;
  modified : Z;
  type : string;
  originalName : string;
  customMetadata : Json.JSValue
}.

(** The mutable state shared by all requests: the directories that exist,
    by resolved path, and the [fileMetadata] map. *)
Record World : Type := {
  dirs : gmap string Dir;
  fileMetadata : gmap string Metadata
}.

(** The two spellings of the upload directory: ['uploads'] resolved against
    the working directory of the process (upload, list, search) and
    [path.join(__dirname, '..', 'uploads')] (metadata, download, delete,
    health).  They are the same directory when the process is started from
    the project root. *)
Record Env : Type := {
  cwdUploads : string;
  appUploads : string
}.

(** What the host answers during one request: the clock read by
    [Date.now()] and [new Date()], the two times with which the file
    system stamps a file written during the request (they are taken by the
    file system, after the clock was read, and need not agree with it or
    with each other), and for each kind of file-system call whether it
    fails and with which message. *)
Record IO : Type := {
  now : Z;
  file_birthtime : Z;
  file_mtime : Z;
  mkdir_error : option string;
  write_error : option string;
  readdir_error : option string;
  stat_error : option string;
  unlink_error : option string
}.

(** A path is the upload directory itself or a file directly inside it.
    A file name taken from a request is used as one path segment: names
    with a separator, ["."] and [".."] are outside the model. *)
Record FilePath : Type := {
  dirname : string;
  basename : string
}.

(** A name that is one path segment: not empty, not ["."], not [".."] and
    without a separator.  For such a name, and only for such a name,
    [path.join(dir, name)] is the entry [name] of [dir]; other names are
    resolved by [path.join] segment by segment and may denote another
    entry, the directory itself or a path outside it. *)
Definition plain_name (name : string) : bool :=
  negb (String.eqb name "") && negb (String.eqb name ".") && negb (String.eqb name "..")
  && forallb (fun c => negb (Ascii.eqb c "/"%char)) (list_ascii_of_string name).

Inductive Path : Type :=
| PDir (dir : string)
| PFile (f : FilePath).

Inductive Result (A : Type) : Type :=
| Ok (a : A)
| Throw (message : string).
Arguments Ok {A} a.
Arguments Throw {A} message.

#[export] Instance Result_ret : MRet Result := fun _ a => Ok a.
#[export] Instance Result_bind : MBind Result := fun _ _ k r =>
  match r with
  | Ok a => k a
  | Throw e => Throw e
  end.

(** A computation that may throw and may change the world; the world it
    leaves behind is returned in both cases. *)
Definition M (A : Type) : Type := World -> Result A * World.

#[export] Instance M_ret : MRet M := fun _ a w => (Ok a, w).
#[export] Instance M_bind : MBind M := fun _ _ k m w =>
  match m w with
  | (Ok a, w') => k a w'
  | (Throw e, w') => (Throw e, w')
  end.

Definition throw {A : Type} (message : string) : M A := fun w => (Throw message, w).

Definition lift {A : Type} (r : Result A) : M A := fun w => (r, w).

(** ** Node's [fs] and [path] *)

Module Fs.

Definition lookup_file (name : string) (d : Dir) : option Stats :=
  snd <$> find (fun e => String.eqb name (fst e)) d.

Definition remove_file (name : string) (d : Dir) : Dir :=
  List.filter (fun e => negb (String.eqb name (fst e))) d.

Fixpoint put_file (name : string) (st : Stats) (d : Dir) : Dir :=
  match d with
  | [] => [(name, st)]
  | (name', st') :: d' =>
      if String.eqb name name' then (name, st) :: d' else (name', st') :: put_file name st d'
  end.

Definition exists_in (p : Path) (w : World) : bool :=
  match p with
  | PDir dir => bool_decide (is_Some (dirs w !! dir))
  | PFile f =>
      match dirs w !! dirname f with
      | Some d => bool_decide (is_Some (lookup_file (basename f) d))
      | None => false
      end
  end.

Definition set_dir (dir : string) (d : Dir) (w : World) : World :=
  {| dirs := <[dir := d]> (dirs w); fileMetadata := fileMetadata w |}.

(** [fs.existsSync] never throws. *)
Definition existsSync (p : Path) : M bool := fun w => (Ok (exists_in p w), w).

(** [fs.mkdirSync(dir)] and [fs.mkdirSync(dir, { recursive: true })]. *)
Definition mkdirSync (io : IO) (dir : string) (recursive : bool) : M unit := fun w =>
  match mkdir_error io with
  | Some e => (Throw e, w)
  | None =>
      match dirs w !! dir with
      | Some _ => if recursive then (Ok tt, w) else (Throw "EEXIST", w)
      | None => (Ok tt, set_dir dir [] w)
      end
  end.

Definition readdirSync (io : IO) (dir : string) : M (list string) := fun w =>
  match readdir_error io with
  | Some e => (Throw e, w)
  | None =>
      match dirs w !! dir with
      | Some d => (Ok (map fst d), w)
      | None => (Throw "ENOENT", w)
      end
  end.

Definition statSync (io : IO) (f : FilePath) : M Stats := fun w =>
  match stat_error io with
  | Some e => (Throw e, w)
  | None =>
      match dirs w !! dirname f ≫= lookup_file (basename f) with
      | Some st => (Ok st, w)
      | None => (Throw "ENOENT", w)
      end
  end.

Definition unlinkSync (io : IO) (f : FilePath) : M unit := fun w =>
  match unlink_error io with
  | Some e => (Throw e, w)
  | None =>
      match dirs w !! dirname f with
      | Some d =>
          if bool_decide (is_Some (lookup_file (basename f) d))
          then (Ok tt, set_dir (dirname f) (remove_file (basename f) d) w)
          else (Throw "ENOENT", w)
      | None => (Throw "ENOENT", w)
      end
  end.

(** The write stream that multer's disk storage opens in the destination
    directory: a new file gets the birth time and the modification time
    that the file system gives it, an existing one is truncated, keeps its
    birth time and gets the new modification time. *)
Definition writeFile (io : IO) (f : FilePath) (bytes : Z) : M unit := fun w =>
  match write_error io with
  | Some e => (Throw e, w)
  | None =>
      match dirs w !! dirname f with
      | Some d =>
          let born :=
            default (file_birthtime io) (birthtime <$> lookup_file (basename f) d) in
          (Ok tt, set_dir (dirname f)
             (put_file (basename f)
                {| stat_size := bytes; birthtime := born; mtime := file_mtime io |} d) w)
      | None => (Throw "ENOENT", w)
      end
  end.

(** [path.extname] looks at the last segment of a path; for a name
    without separators it is the part from the last dot on, empty when
    there is no dot, when the only dot opens the name, and for [".."]. *)
Fixpoint after_last_dot (cs : list ascii) : option (list ascii) :=
  match cs with
  | [] => None
  | c :: cs' =>
      match after_last_dot cs' with
      | Some ext => Some ext
      | None => if Ascii.eqb c "."%char then Some cs' else None
      end
  end.

Definition extname (name : string) : string :=
  match JS.chars name with
  | [] => ""
  | c :: cs' =>
      if String.eqb name ".." then ""
      else match after_last_dot cs' with
           | Some ext => JS.str ("."%char :: ext)
           | None => ""
           end
  end.

End Fs.

(** ** Requests and responses *)

(** The object [{ filename, ...fileMetadata.get(filename) }]: the six
    fields of the record are present when the map has one for the name and
    absent otherwise; no field of a record is called [filename]. *)
Record FileEntry : Type := {
  filename : string;
  record : option Metadata
}.

(** The JSON bodies the handlers send, by shape. *)
Inductive Body : Type :=
| BError (error : string)                               (* { error } *)
| BUploaded (name : string) (metadata : Metadata)       (* { message, filename, metadata } *)
| BFiles (files : list FileEntry)                       (* [ { filename, ...record } ] *)
| BMetadata (metadata : Metadata)                       (* the record *)
| BMessage (message : string)                           (* { message } *)
| BAttachment (filepath : FilePath)                     (* res.download(filepath) *)
| BHealthy (timestamp : Z)                              (* { status: 'healthy', timestamp } *)
| BUnhealthy (error : string).                          (* { status: 'unhealthy', error } *)

Record Response : Type := {
  status : Z;
  body : Body
}.

(** [res.json(b)] answers with status 200; [res.status(c).json(b)] with [c]. *)
Definition json (b : Body) : Response := {| status := 200; body := b |}.
Definition status_json (c : Z) (b : Body) : Response := {| status := c; body := b |}.

(** [try { ... } catch (error) { ... }] around a handler body. *)
Definition try_catch (body : M Response) (handler : string -> Response)
  : World -> Response * World := fun w =>
  match body w with
  | (Ok r, w') => (r, w')
  | (Throw e, w') => (handler e, w')
  end.

(** The multipart part named [file] as the client sent it. *)
Record FilePart : Type := {
  part_originalname : string;
  part_bytes : Z
}.

(** [req.file] as multer leaves it for the handler. *)
Module ReqFile.
Record t : Type := {
  originalname : string;
  filename : string;
  path : FilePath
}.
End ReqFile.

(** [POST /upload]: the optional [file] part and the optional text field
    [metadata]. *)
Record UploadRequest : Type := {
  req_file : option FilePart;
  req_metadata : option string
}.

(** [req.query] of [GET /files/search]; every parameter is a string or
    absent. *)
Record SearchQuery : Type := {
  query : option string;
  qtype : option string;
  minSize : option string;
  maxSize : option string;
  dateFrom : option string;
  dateTo : option string
}.

(** An upload either reaches the route handler, which always responds, or
    fails inside multer, outside the handler's [try]. *)
Inductive Outcome : Type :=
| Responded (r : Response)
| Unhandled (message : string).

(** ** The application *)

Section Server.
Context `{engine : Builtins} (env : Env).
Import Json.

(** *** The [fileMetadata] map *)

Definition fileMetadata_get (name : string) : M (option Metadata) := fun w =>
  (Ok (fileMetadata w !! name), w).

Definition fileMetadata_set (name : string) (metadata : Metadata) : M unit := fun w =>
  (Ok tt, {| dirs := dirs w; fileMetadata := <[name := metadata]> (fileMetadata w) |}).

Definition fileMetadata_delete (name : string) : M unit := fun w =>
  (Ok tt, {| dirs := dirs w; fileMetadata := delete name (fileMetadata w) |}).

(** *** [getFileMetadata]

    The four fields read from the file system; the caller adds
    [originalName] and [customMetadata]. *)
Definition getFileMetadata (io : IO) (filepath : FilePath)
  : M (string -> JSValue -> Metadata) :=
  stats ← Fs.statSync io filepath;
  let ext := Fs.extname (basename filepath) in
  let sliced := JS.str (tail (JS.chars ext)) in
  mret (fun original custom =>
    {| size := stat_size stats;
       created := birthtime stats;
       modified := mtime stats;
       type := if String.eqb sliced "" then "unknown" else sliced;
       originalName := original;
       customMetadata := custom |}).

(** *** multer's disk storage *)

Definition storage_destination (io : IO) : M string :=
  let uploadDir := cwdUploads env in
  present ← Fs.existsSync (PDir uploadDir);
  (if negb present then Fs.mkdirSync io uploadDir false else mret tt);;
  mret uploadDir.

Definition storage_filename (io : IO) (file : FilePart) : string :=
  JS.number_to_string (now io) +:+ "-" +:+ part_originalname file.

(** [upload.single('file')]: without a [file] part [req.file] stays
    undefined; with one, the part is written under the name chosen by
    [storage_filename] into the directory given by [storage_destination]. *)
Definition upload_single (io : IO) (part : option FilePart) : M (option ReqFile.t) :=
  match part with
  | None => mret None
  | Some file =>
      dir ← storage_destination io;
      let name := storage_filename io file in
      let filepath := {| dirname := dir; basename := name |} in
      Fs.writeFile io filepath (part_bytes file);;
      mret (Some {| ReqFile.originalname := part_originalname file;
                    ReqFile.filename := name;
                    ReqFile.path := filepath |})
  end.

(** *** [POST /upload] *)

Definition upload_handler (io : IO) (file : option ReqFile.t) (metadata_field : option string)
  : World -> Response * World :=
  try_catch
    (match file with
     | None => mret (status_json 400 (BError "No file uploaded"))
     | Some f =>
         fields ← getFileMetadata io (ReqFile.path f);
         custom ← match JS.truthy_value metadata_field with
                  | Some text =>
                      match JSON_parse text with
                      | Some v => mret v
                      | None => throw "SyntaxError"
                      end
                  | None => mret (JObj [])
                  end;
         let metadata := fields (ReqFile.originalname f) custom in
         fileMetadata_set (ReqFile.filename f) metadata;;
         mret (json (BUploaded (ReqFile.filename f) metadata))
     end)
    (fun _ => status_json 500 (BError "Error uploading file")).

Definition post_upload (io : IO) (req : UploadRequest) : World -> Outcome * World := fun w =>
  match upload_single io (req_file req) w with
  | (Ok file, w') =>
      let '(r, w'') := upload_handler io file (req_metadata req) w' in
      (Responded r, w'')
  | (Throw e, w') => (Unhandled e, w')
  end.

(** *** [GET /files] *)

Definition with_metadata (files : list string) : M (list FileEntry) := fun w =>
  (Ok (map (fun name => {| filename := name; record := fileMetadata w !! name |}) files), w).

Definition get_files (io : IO) : World -> Response * World :=
  try_catch
    (let uploadDir := cwdUploads env in
     present ← Fs.existsSync (PDir uploadDir);
     if negb present then mret (json (BFiles []))
     else
       files ← Fs.readdirSync io uploadDir;
       filesWithMetadata ← with_metadata files;
       mret (json (BFiles filesWithMetadata)))
    (fun _ => status_json 500 (BError "Error listing files")).

(** *** [GET /files/search] *)

(** The tests of the filter callback, one per [if]; each says whether its
    [return false] is taken.  The first one reads
    [JSON.stringify(file.customMetadata).toLowerCase()] only when the file
    name does not contain the query; for an entry without a record
    [JSON.stringify(undefined)] is [undefined] and the method call throws
    a [TypeError]. *)
Definition query_rejects (q : SearchQuery) (file : FileEntry) : Result bool :=
  match JS.truthy_value (query q) with
  | Some text =>
      if negb (JS.includes (JS.toLowerCase (filename file)) (JS.toLowerCase text)) then
        match customMetadata <$> record file with
        | Some custom =>
            Ok (negb (JS.includes (JS.toLowerCase (stringify custom)) (JS.toLowerCase text)))
        | None => Throw "TypeError"
        end
      else Ok false
  | None => Ok false
  end.

Definition type_rejects (q : SearchQuery) (file : FileEntry) : bool :=
  match JS.truthy_value (qtype q) with
  | Some t => negb (bool_decide (type <$> record file = Some t))
  | None => false
  end.

Definition minSize_rejects (q : SearchQuery) (file : FileEntry) : bool :=
  match JS.truthy_value (minSize q) with
  | Some text => JS.lt (size <$> record file) (JS.parseInt text)
  | None => false
  end.

Definition maxSize_rejects (q : SearchQuery) (file : FileEntry) : bool :=
  match JS.truthy_value (maxSize q) with
  | Some text => JS.gt (size <$> record file) (JS.parseInt text)
  | None => false
  end.

(** [new Date(file.created)] has the time value of the record's [created],
    and is an invalid date for an entry without a record. *)
Definition dateFrom_rejects (q : SearchQuery) (file : FileEntry) : bool :=
  match JS.truthy_value (dateFrom q) with
  | Some text => JS.lt (created <$> record file) (Date_parse text)
  | None => false
  end.

Definition dateTo_rejects (q : SearchQuery) (file : FileEntry) : bool :=
  match JS.truthy_value (dateTo q) with
  | Some text => JS.gt (created <$> record file) (Date_parse text)
  | None => false
  end.

Definition search_filter (q : SearchQuery) (file : FileEntry) : Result bool :=
  query_rejects q file ≫= fun rejected : bool =>
  if rejected then Ok false
  else if type_rejects q file then Ok false
  else if minSize_rejects q file then Ok false
  else if maxSize_rejects q file then Ok false
  else if dateFrom_rejects q file then Ok false
  else if dateTo_rejects q file then Ok false
  else Ok true.

(** [Array.prototype.filter] with a callback that may throw. *)
Fixpoint array_filter {A : Type} (f : A -> Result bool) (l : list A) : Result (list A) :=
  match l with
  | [] => Ok []
  | x :: l' =>
      f x ≫= fun keep : bool =>
      rest ← array_filter f l';
      Ok (if keep then x :: rest else rest)
  end.

Definition get_files_search (io : IO) (q : SearchQuery) : World -> Response * World :=
  try_catch
    (let uploadDir := cwdUploads env in
     present ← Fs.existsSync (PDir uploadDir);
     if negb present then mret (json (BFiles []))
     else
       files ← Fs.readdirSync io uploadDir;
       entries ← with_metadata files;
       results ← lift (array_filter (search_filter q) entries);
       mret (json (BFiles results)))
    (fun _ => status_json 500 (BError "Error searching files")).

(** *** The routes on one stored file

    [path.join(__dirname, '..', 'uploads', filename)] for a [filename] that
    is a [plain_name].  The route parameter can hold any decoded string
    ([%2F] gives a separator); for a name that is not plain [path.join]
    resolves the segments, and the handlers below, which take the name as
    one entry of the directory, describe the code for plain names only. *)

Definition stored (name : string) : FilePath :=
  {| dirname := appUploads env; basename := name |}.

Definition get_file_metadata (name : string) : World -> Response * World :=
  try_catch
    (let filepath := stored name in
     present ← Fs.existsSync (PFile filepath);
     if negb present then mret (status_json 404 (BError "File not found"))
     else
       metadata ← fileMetadata_get name;
       match metadata with
       | None => mret (status_json 404 (BError "File metadata not found"))
       | Some metadata => mret (json (BMetadata metadata))
       end)
    (fun _ => status_json 500 (BError "Error retrieving file metadata")).

Definition patch_file_metadata (name : string) (req_body : JSValue)
  : World -> Response * World :=
  try_catch
    (let filepath := stored name in
     present ← Fs.existsSync (PFile filepath);
     if negb present then mret (status_json 404 (BError "File not found"))
     else
       currentMetadata ← fileMetadata_get name;
       match currentMetadata with
       | None => mret (status_json 404 (BError "File metadata not found"))
       | Some currentMetadata =>
           let updatedMetadata :=
             {| size := size currentMetadata;
                created := created currentMetadata;
                modified := modified currentMetadata;
                type := type currentMetadata;
                originalName := originalName currentMetadata;
                customMetadata := spread2 (customMetadata currentMetadata) req_body |} in
           fileMetadata_set name updatedMetadata;;
           mret (json (BMetadata updatedMetadata))
       end)
    (fun _ => status_json 500 (BError "Error updating file metadata")).

Definition get_download (name : string) : World -> Response * World :=
  try_catch
    (let filepath := stored name in
     present ← Fs.existsSync (PFile filepath);
     if negb present then mret (status_json 404 (BError "File not found"))
     else mret (json (BAttachment filepath)))
    (fun _ => status_json 500 (BError "Error downloading file")).

Definition delete_file (io : IO) (name : string) : World -> Response * World :=
  try_catch
    (let filepath := stored name in
     present ← Fs.existsSync (PFile filepath);
     if negb present then mret (status_json 404 (BError "File not found"))
     else
       Fs.unlinkSync io filepath;;
       fileMetadata_delete name;;
       mret (json (BMessage "File deleted successfully")))
    (fun _ => status_json 500 (BError "Error deleting file")).

(** *** [GET /health] *)

Definition get_health (io : IO) : World -> Response * World :=
  try_catch
    (let uploadDir := appUploads env in
     present ← Fs.existsSync (PDir uploadDir);
     (if negb present then Fs.mkdirSync io uploadDir true else mret tt);;
     mret (status_json 200 (BHealthy (now io))))
    (fun message => status_json 500 (BUnhealthy message)).

End Server.

(** ** A reference engine for concrete runs

    The theorems below hold for every [Builtins]; the runs on concrete
    requests need one.  [JSON_parse] here follows the JSON grammar and
    builds objects with [set_prop]; it keeps a number as it is written,
    which is its rendering for integers and short decimals in the usual
    notation, and rejects a [\u] escape of a code unit above 255, which a
    [string] cannot hold.  [Date_parse] reads the date-only ISO form
    [YYYY-MM-DD] with a valid calendar day; the other strings used in the
    runs contain no digit, and no engine reads a date from those. *)

Module Reference.
Import JS Json.

Definition is_json_space (c : ascii) : bool :=
  let n := code c in (n =? 32) || (n =? 9) || (n =? 10) || (n =? 13).

Fixpoint skip_space (cs : list ascii) : list ascii :=
  match cs with
  | c :: cs' => if is_json_space c then skip_space cs' else cs
  | [] => []
  end.

Definition is_digit (c : ascii) : bool := (48 <=? code c) && (code c <=? 57).

Fixpoint span_digits (cs : list ascii) : list ascii * list ascii :=
  match cs with
  | c :: cs' =>
      if is_digit c then let '(ds, rest) := span_digits cs' in (c :: ds, rest)
      else ([], cs)
  | [] => ([], [])
  end.

(** A number token: an optional minus sign; a zero or a run of digits not
    opening with zero; optionally a dot and digits; optionally [e] or [E],
    a sign and digits.  The token is returned as written. *)
Definition parse_number (cs : list ascii) : option (list ascii * list ascii) :=
  let '(sign, cs) :=
    match cs with
    | "-"%char :: cs' => (["-"%char], cs')
    | _ => ([], cs)
    end in
  let '(int, cs) := span_digits cs in
  match int with
  | [] => None
  | d :: ds =>
      if Ascii.eqb d "0"%char && negb (bool_decide (ds = [])) then None
      else
        let frac :=
          match cs with
          | "."%char :: cs' =>
              let '(fs, rest) := span_digits cs' in
              match fs with
              | [] => None
              | _ => Some ("."%char :: fs, rest)
              end
          | _ => Some ([], cs)
          end in
        match frac with
        | None => None
        | Some (frac, cs) =>
            let exponent (e : ascii) (cs' : list ascii) :=
              let '(sg, cs') :=
                match cs' with
                | "+"%char :: r => (["+"%char], r)
                | "-"%char :: r => (["-"%char], r)
                | _ => ([], cs')
                end in
              let '(es, rest) := span_digits cs' in
              match es with
              | [] => None
              | _ => Some (sign ++ int ++ frac ++ e :: sg ++ es, rest)
              end in
            match cs with
            | "e"%char :: cs' => exponent "e"%char cs'
            | "E"%char :: cs' => exponent "E"%char cs'
            | _ => Some (sign ++ int ++ frac, cs)
            end
        end
  end.

Definition simple_escape (c : ascii) : option ascii :=
  let n := code c in
  if n =? 34 then Some dquote
  else if n =? 92 then Some backslash
  else if n =? 47 then Some "/"%char
  else if n =? 98 then Some (ascii_of_N 8)
  else if n =? 102 then Some (ascii_of_N 12)
  else if n =? 110 then Some (ascii_of_N 10)
  else if n =? 114 then Some (ascii_of_N 13)
  else if n =? 116 then Some (ascii_of_N 9)
  else None.

Definition hex4 (a b c d : ascii) : option Z :=
  x ← digit_value 16 a; y ← digit_value 16 b;
  z ← digit_value 16 c; t ← digit_value 16 d;
  Some (((x * 16 + y) * 16 + z) * 16 + t).

(** The rest of a string literal after its opening quote. *)
Fixpoint parse_string (acc cs : list ascii) : option (string * list ascii) :=
  match cs with
  | [] => None
  | c :: rest =>
      if Ascii.eqb c dquote then Some (str (rev acc), rest)
      else if Ascii.eqb c backslash then
        match rest with
        | "u"%char :: h1 :: h2 :: h3 :: h4 :: rest' =>
            match hex4 h1 h2 h3 h4 with
            | Some n =>
                if n <? 256 then parse_string (ascii_of_N (Z.to_N n) :: acc) rest' else None
            | None => None
            end
        | e :: rest' =>
            match simple_escape e with
            | Some x => parse_string (x :: acc) rest'
            | None => None
            end
        | [] => None
        end
      else if code c <? 32 then None
      else parse_string (c :: acc) rest
  end.

Fixpoint parse_value (fuel : nat) (cs : list ascii) : option (JSValue * list ascii) :=
  match fuel with
  | O => None
  | S fuel' =>
      match skip_space cs with
      | "n"%char :: "u"%char :: "l"%char :: "l"%char :: rest => Some (JNull, rest)
      | "t"%char :: "r"%char :: "u"%char :: "e"%char :: rest => Some (JBool true, rest)
      | "f"%char :: "a"%char :: "l"%char :: "s"%char :: "e"%char :: rest =>
          Some (JBool false, rest)
      | "["%char :: rest =>
          match skip_space rest with
          | "]"%char :: rest' => Some (JArr [], rest')
          | _ => parse_elements fuel' [] rest
          end
      | "{"%char :: rest =>
          match skip_space rest with
          | "}"%char :: rest' => Some (JObj [], rest')
          | _ => parse_members fuel' [] rest
          end
      | c :: rest =>
          if Ascii.eqb c dquote then
            '(s, rest') ← parse_string [] rest; Some (JStr s, rest')
          else
            '(text, rest') ← parse_number (c :: rest); Some (JNum (str text), rest')
      | [] => None
      end
  end
with parse_elements (fuel : nat) (acc : list JSValue) (cs : list ascii)
  : option (JSValue * list ascii) :=
  match fuel with
  | O => None
  | S fuel' =>
      '(v, rest) ← parse_value fuel' cs;
      match skip_space rest with
      | ","%char :: rest' => parse_elements fuel' (acc ++ [v]) rest'
      | "]"%char :: rest' => Some (JArr (acc ++ [v]), rest')
      | _ => None
      end
  end
with parse_members (fuel : nat) (acc : list (string * JSValue)) (cs : list ascii)
  : option (JSValue * list ascii) :=
  match fuel with
  | O => None
  | S fuel' =>
      match skip_space cs with
      | c :: rest =>
          if Ascii.eqb c dquote then
            '(k, rest) ← parse_string [] rest;
            match skip_space rest with
            | ":"%char :: rest =>
                '(v, rest) ← parse_value fuel' rest;
                match skip_space rest with
                | ","%char :: rest' => parse_members fuel' (set_prop k v acc) rest'
                | "}"%char :: rest' => Some (JObj (set_prop k v acc), rest')
                | _ => None
                end
            | _ => None
            end
          else None
      | [] => None
      end
  end.

Definition JSON_parse_ref (text : string) : option JSValue :=
  let cs := chars text in
  '(v, rest) ← parse_value (2 * length cs + 2) cs;
  match skip_space rest with
  | [] => Some v
  | _ :: _ => None
  end.

(** Days from 1970-01-01 to a day of the proleptic Gregorian calendar. *)
Definition days_from_civil (y m d : Z) : Z :=
  let y' := if m <=? 2 then y - 1 else y in
  let era := y' / 400 in
  let yoe := y' - era * 400 in
  let doy := (153 * (if 2 <? m then m - 3 else m + 9) + 2) / 5 + d - 1 in
  let doe := yoe * 365 + yoe / 4 - yoe / 100 + doy in
  era * 146097 + doe - 719468.

Definition leap_year (y : Z) : bool :=
  ((y mod 4 =? 0) && negb (y mod 100 =? 0)) || (y mod 400 =? 0).

Definition days_in_month (y m : Z) : Z :=
  if m =? 2 then (if leap_year y then 29 else 28)
  else if (m =? 4) || (m =? 6) || (m =? 9) || (m =? 11) then 30
  else 31.

Definition number_of (ds : list ascii) : option Z :=
  if forallb is_digit ds then digits_prefix 10 None ds else None.

Definition Date_parse_ref (text : string) : option Z :=
  match chars text with
  | [y1; y2; y3; y4; "-"%char; m1; m2; "-"%char; d1; d2] =>
      y ← number_of [y1; y2; y3; y4];
      m ← number_of [m1; m2];
      d ← number_of [d1; d2];
      if (1 <=? m) && (m <=? 12) && (1 <=? d) && (d <=? days_in_month y m)
      then Some (days_from_civil y m d * 86400000)
      else None
  | _ => None
  end.

#[export] Instance engine : Builtins := {
  JSON_parse := JSON_parse_ref;
  Date_parse := Date_parse_ref
}.

End Reference.


(** ** Readings used to state the properties *)

Module Spec.
Import JS.

(** A bound written as an integer: an optional minus sign and one or more
    decimal digits, read in base ten. *)
Definition decimal_digits (cs : list ascii) : option Z :=
  match cs with
  | [] => None
  | _ :: _ =>
      if forallb Reference.is_digit cs
      then Some (fold_left (fun acc c => 10 * acc + (code c - 48)) cs 0)
      else None
  end.

Definition integer_literal (text : string) : option Z :=
  match chars text with
  | c :: cs =>
      if Ascii.eqb c "-"%char then Z.opp <$> decimal_digits cs
      else decimal_digits (c :: cs)
  | [] => None
  end.

(** The bound that a size parameter stands for: none when the parameter is
    absent, the integer it writes when it is an integer literal. *)
Definition size_bound (param : option string) : option (option Z) :=
  match param with
  | None => Some None
  | Some text => Some <$> integer_literal text
  end.

Definition at_least (lo : option Z) (n : Z) : Prop :=
  match lo with Some a => a <= n | None => True end.

Definition at_most (hi : option Z) (n : Z) : Prop :=
  match hi with Some b => n <= b | None => True end.

(** The number written by a decimal numeral with a fraction part,
    [digits.digits], as a rational. *)
Fixpoint split_at_dot (cs : list ascii) : option (list ascii * list ascii) :=
  match cs with
  | [] => None
  | c :: cs' =>
      if Ascii.eqb c "."%char then Some ([], cs')
      else '(int, frac) ← split_at_dot cs'; Some (c :: int, frac)
  end.

Definition decimal_numeral (text : string) : option Q :=
  '(int, frac) ← split_at_dot (chars text);
  i ← decimal_digits int;
  f ← decimal_digits frac;
  Some (Qmake (i * 10 ^ Z.of_nat (length frac) + f) (Z.to_pos (10 ^ Z.of_nat (length frac)))).

(** Search requests that differ from [q] in one parameter. *)
Definition with_minSize (v : option string) (q : SearchQuery) : SearchQuery :=
  {| query := query q; qtype := qtype q; minSize := v; maxSize := maxSize q;
     dateFrom := dateFrom q; dateTo := dateTo q |}.

Definition with_maxSize (v : option string) (q : SearchQuery) : SearchQuery :=
  {| query := query q; qtype := qtype q; minSize := minSize q; maxSize := v;
     dateFrom := dateFrom q; dateTo := dateTo q |}.

Definition with_dateFrom (v : option string) (q : SearchQuery) : SearchQuery :=
  {| query := query q; qtype := qtype q; minSize := minSize q; maxSize := maxSize q;
     dateFrom := v; dateTo := dateTo q |}.

Definition with_dateTo (v : option string) (q : SearchQuery) : SearchQuery :=
  {| query := query q; qtype := qtype q; minSize := minSize q; maxSize := maxSize q;
     dateFrom := dateFrom q; dateTo := v |}.

(** The answer [404 { error: 'File not found' }]. *)
Definition not_found : Response := status_json 404 (BError "File not found").

End Spec.

(** ** Concrete states and requests for the runs *)

Module Run.

Definition env : Env := {| cwdUploads := "/srv/app/uploads"; appUploads := "/srv/app/uploads" |}.

Definition io : IO :=
  {| now := 1700000000000; file_birthtime := 1700000000001;
     file_mtime := 1700000000002; mkdir_error := None; write_error := None;
     readdir_error := None; stat_error := None; unlink_error := None |}.

(** A fresh process on a host where the upload directory does not exist. *)
Definition fresh : World := {| dirs := ∅; fileMetadata := ∅ |}.

Definition report : FilePart := {| part_originalname := "report.txt"; part_bytes := 10 |}.

Definition stored_report : string := "1700000000000-report.txt".

Definition report_metadata : Metadata :=
  {| size := 10; created := 1700000000001; modified := 1700000000002; type := "txt";
     originalName := "report.txt"; customMetadata := Json.JObj [] |}.

Definition report_entry : FileEntry :=
  {| filename := stored_report; record := Some report_metadata |}.

(** The state after [report] was uploaded into [fresh]. *)
Definition one_file : World :=
  {| dirs := {[ "/srv/app/uploads" :=
                 [(stored_report,
                   {| stat_size := 10; birthtime := 1700000000001; mtime := 1700000000002 |})] ]};
     fileMetadata := {[ stored_report := report_metadata ]} |}.

(** The same directory after a restart: the file is there, its record is
    not. *)
Definition orphan : World :=
  {| dirs := dirs one_file; fileMetadata := ∅ |}.

Definition any : SearchQuery :=
  {| query := None; qtype := None; minSize := None; maxSize := None;
     dateFrom := None; dateTo := None |}.

Definition upload_plain : UploadRequest :=
  {| req_file := Some report; req_metadata := None |}.

Definition upload_malformed : UploadRequest :=
  {| req_file := Some report; req_metadata := Some "{tag" |}.

End Run.


(** ** The routes as one step function *)

(** One request to the application, by route. *)
Inductive Request : Type :=
| PostUpload (req : UploadRequest)
| GetFiles
| GetFilesSearch (q : SearchQuery)
| GetFileMetadata (name : string)
| PatchFileMetadata (name : string) (req_body : Json.JSValue)
| GetDownload (name : string)
| DeleteFile (name : string)
| GetHealth.

(** The file name that a request carries in its path, for the routes on
    one stored file. *)
Definition request_name (req : Request) : option string :=
  match req with
  | GetFileMetadata name | PatchFileMetadata name _ | GetDownload name | DeleteFile name =>
      Some name
  | PostUpload _ | GetFiles | GetFilesSearch _ | GetHealth => None
  end.

(** A request whose file name, if it has one, is one path segment. *)
Definition plain_request (req : Request) : bool :=
  match request_name req with
  | Some name => plain_name name
  | None => true
  end.

Section App.
Context `{engine : Builtins} (env : Env).

(** The route table: each request goes to its handler. *)
Definition respond (io : IO) (req : Request) (w : World) : Outcome * World :=
  let answered (rw : Response * World) := (Responded (fst rw), snd rw) in
  match req with
  | PostUpload r => post_upload env io r w
  | GetFiles => answered (get_files env io w)
  | GetFilesSearch q => answered (get_files_search env io q w)
  | GetFileMetadata name => answered (get_file_metadata env name w)
  | PatchFileMetadata name req_body => answered (patch_file_metadata env name req_body w)
  | GetDownload name => answered (get_download env name w)
  | DeleteFile name => answered (delete_file env io name w)
  | GetHealth => answered (get_health env io w)
  end.

(** The state after a sequence of requests, each with what the host
    answered during it. *)
Fixpoint serve_all (trace : list (IO * Request)) (w : World) : World :=
  match trace with
  | [] => w
  | (io, req) :: rest => serve_all rest (snd (respond io req w))
  end.

(** Every record of [fileMetadata] has its file in the directory that
    uploads are written to. *)
Definition records_have_files (w : World) : Prop :=
  forall name,
    is_Some (fileMetadata w !! name) ->
    Fs.exists_in (PFile {| dirname := cwdUploads env; basename := name |}) w = true.

End App.

(** A search request with no parameter that the filter acts on. *)
Definition no_filter (q : SearchQuery) : Prop :=
  JS.truthy_value (query q) = None /\ JS.truthy_value (qtype q) = None
  /\ JS.truthy_value (minSize q) = None /\ JS.truthy_value (maxSize q) = None
  /\ JS.truthy_value (dateFrom q) = None /\ JS.truthy_value (dateTo q) = None.

Definition with_query (v : option string) (q : SearchQuery) : SearchQuery :=
  {| query := v; qtype := qtype q; minSize := minSize q; maxSize := maxSize q;
     dateFrom := dateFrom q; dateTo := dateTo q |}.

(** The part of a name after its last dot, when it has a dot. *)
Definition last_extension (name : string) : option string :=
  JS.str <$> Fs.after_last_dot (JS.chars name).

(** A run of code units without a dot. *)
Definition dotless (cs : list ascii) : Prop := Forall (fun c => c <> "."%char) cs.


(** Further states for the runs. *)
Module RunMore.

Definition old_name : string := "1600000000000-old.txt".

Definition old_metadata : Metadata :=
  {| size := 4; created := 1600000000001; modified := 1600000000002; type := "txt";
     originalName := "old.txt"; customMetadata := Json.JObj [] |}.

(** [Run.one_file] with an older file and its record beside the report. *)
Definition two_files : World :=
  {| dirs := {[ "/srv/app/uploads" :=
                 [(old_name,
                   {| stat_size := 4; birthtime := 1600000000001; mtime := 1600000000002 |});
                  (Run.stored_report,
                   {| stat_size := 10; birthtime := 1700000000001;
                      mtime := 1700000000002 |})] ]};
     fileMetadata := {[ old_name := old_metadata; Run.stored_report := Run.report_metadata ]} |}.

(** The report again, under the same name, with three bytes. *)
Definition short_report : FilePart := {| part_originalname := "report.txt"; part_bytes := 3 |}.

End RunMore.

(** ** The built-ins on small inputs *)

Example parseInt_integer : JS.parseInt "42" = Some 42.
Proof. reflexivity. Qed.

Example parseInt_fraction : JS.parseInt "10.5" = Some 10.
Proof. reflexivity. Qed.

Example parseInt_exponent : JS.parseInt "1e3" = Some 1.
Proof. reflexivity. Qed.

Example parseInt_hex : JS.parseInt "0x1F" = Some 31.
Proof. reflexivity. Qed.

Example parseInt_padded : JS.parseInt "  -7 bytes" = Some (-7).
Proof. reflexivity. Qed.

Example parseInt_word : JS.parseInt "large" = None.
Proof. reflexivity. Qed.

Example parseInt_empty : JS.parseInt "" = None.
Proof. reflexivity. Qed.

Example includes_lowered :
  JS.includes (JS.toLowerCase "1700000000000-Report.TXT") (JS.toLowerCase "REPORT") = true.
Proof. reflexivity. Qed.

Example extname_stored : Fs.extname "1700000000000-report.txt" = ".txt".
Proof. reflexivity. Qed.

Example extname_two_dots : Fs.extname "1700000000000-archive.tar.gz" = ".gz".
Proof. reflexivity. Qed.

Example extname_none : Fs.extname "1700000000000-README" = "".
Proof. reflexivity. Qed.

Example extname_trailing_dot : Fs.extname "1700000000000-notes." = ".".
Proof. reflexivity. Qed.

Example stringify_array :
  Json.stringify (Json.JArr [Json.JNull; Json.JBool true; Json.JNum "1.5"; Json.JObj []])
  = "[null,true,1.5,{}]".
Proof. reflexivity. Qed.

Example spread_overrides_and_keeps :
  Json.spread2
    (Json.JObj [("tag", Json.JStr "x"); ("owner", Json.JStr "ann")])
    (Json.JObj [("tag", Json.JStr "y"); ("7", Json.JNull)])
  = Json.JObj [("7", Json.JNull); ("tag", Json.JStr "y"); ("owner", Json.JStr "ann")].
Proof. vm_compute. reflexivity. Qed.

Example reference_parse_object :
  Reference.JSON_parse_ref "{ }" = Some (Json.JObj [])
  /\ Reference.JSON_parse_ref "[1, -2.5e3, true, null]"
     = Some (Json.JArr [Json.JNum "1"; Json.JNum "-2.5e3"; Json.JBool true; Json.JNull])
  /\ Reference.JSON_parse_ref "{tag" = None
  /\ Reference.JSON_parse_ref "[1,]" = None
  /\ Reference.JSON_parse_ref "" = None.
Proof. vm_compute. repeat split. Qed.

Example reference_parse_date :
  Reference.Date_parse_ref "1970-01-02" = Some 86400000
  /\ Reference.Date_parse_ref "2024-03-01" = Some 1709251200000
  /\ Reference.Date_parse_ref "not-a-date" = None.
Proof. vm_compute. repeat split. Qed.

Example upload_into_fresh :
  post_upload (engine := Reference.engine) Run.env Run.io Run.upload_plain Run.fresh
  = (Responded (json (BUploaded Run.stored_report Run.report_metadata)), Run.one_file).
Proof. vm_compute. reflexivity. Qed.

(** ** Properties of the built-ins *)

Section BuiltinFacts.
Import JS.

Lemma lt_nan_r (a : option Z) : lt a None = false.
Proof. by destruct a. Qed.

Lemma gt_nan_r (a : option Z) : gt a None = false.
Proof. reflexivity. Qed.

Lemma lt_false_iff (n b : Z) : lt (Some n) (Some b) = false <-> b <= n.
Proof. cbn. rewrite Z.ltb_ge. reflexivity. Qed.

Lemma gt_false_iff (n b : Z) : gt (Some n) (Some b) = false <-> n <= b.
Proof. cbn. rewrite Z.ltb_ge. reflexivity. Qed.

Lemma truthy_value_Some (p : option string) (text : string) :
  truthy_value p = Some text <-> p = Some text /\ text <> "".
Proof.
  unfold truthy_value, truthy. destruct p as [s|].
  - destruct (String.eqb_spec s "") as [->|Hne]; cbn.
    + split; [done | intros [[= <-] Hne]; done].
    + split; [intros [= <-]; done | intros [Hs _]; done].
  - split; [done | intros [Hs _]; done].
Qed.

Lemma truthy_value_nonempty (text : string) :
  text <> "" -> truthy_value (Some text) = Some text.
Proof. intros. by apply truthy_value_Some. Qed.

(** A decimal digit is a digit of radix ten with the expected value, and
    is neither white space nor a sign. *)
Lemma digit_value_decimal (c : ascii) :
  Reference.is_digit c = true -> digit_value 10 c = Some (code c - 48) /\ 0 <= code c - 48 < 10.
Proof.
  unfold Reference.is_digit, digit_value. intros Hd.
  apply andb_true_iff in Hd as [H1 H2]. rewrite H1, H2. cbn.
  apply Z.leb_le in H1, H2.
  destruct (code c - 48 <? 10) eqn:E; [split; [done|lia]|].
  apply Z.ltb_ge in E. lia.
Qed.

Lemma digits_prefix_decimal (cs : list ascii) (acc : option Z) :
  forallb Reference.is_digit cs = true -> cs <> [] ->
  digits_prefix 10 acc cs
  = Some (fold_left (fun a c => 10 * a + (code c - 48)) cs (default 0 acc)).
Proof.
  revert acc. induction cs as [|c cs IH]; intros acc Hall Hne; [done|].
  cbn in Hall. apply andb_true_iff in Hall as [Hc Hall].
  destruct (digit_value_decimal c Hc) as [Hv _].
  cbn [digits_prefix fold_left]. rewrite Hv.
  destruct cs as [|c' cs'].
  - reflexivity.
  - rewrite IH; [reflexivity | done | done].
Qed.

Lemma decimal_digits_prefix (cs : list ascii) (n : Z) :
  Spec.decimal_digits cs = Some n -> digits_prefix 10 None cs = Some n.
Proof.
  unfold Spec.decimal_digits. destruct cs as [|c cs]; [done|].
  destruct (forallb _ _) eqn:Hall; [|done]. intros [= <-].
  by rewrite digits_prefix_decimal.
Qed.

Lemma decimal_digits_head (c : ascii) (cs : list ascii) (n : Z) :
  Spec.decimal_digits (c :: cs) = Some n -> Reference.is_digit c = true.
Proof.
  unfold Spec.decimal_digits. destruct (forallb _ _) eqn:Hall; [|done].
  cbn in Hall. apply andb_true_iff in Hall as [Hc _]. done.
Qed.

Lemma digit_not_space (c : ascii) :
  Reference.is_digit c = true -> is_white_space c = false.
Proof.
  unfold Reference.is_digit, is_white_space. intros Hd.
  apply andb_true_iff in Hd as [H1 H2]. apply Z.leb_le in H1, H2.
  destruct (Z.leb_spec 9 (code c)), (Z.leb_spec (code c) 13),
    (Z.eqb_spec (code c) 32), (Z.eqb_spec (code c) 160); cbn; lia || done.
Qed.

Lemma digit_not_char (c d : ascii) :
  Reference.is_digit c = true -> Reference.is_digit d = false -> Ascii.eqb c d = false.
Proof.
  intros Hc Hd. destruct (Ascii.eqb_spec c d); [congruence | done].
Qed.

Lemma strip_prefix_decimal (cs : list ascii) :
  forallb Reference.is_digit cs = true -> strip_prefix cs = (10, cs).
Proof.
  destruct cs as [|c0 [|c1 cs]]; [done..|]. cbn [forallb]. intros Hall.
  apply andb_true_iff in Hall as [_ Hall]. apply andb_true_iff in Hall as [H1 _].
  unfold strip_prefix.
  rewrite (digit_not_char c1 "x"%char), (digit_not_char c1 "X"%char) by done.
  by rewrite andb_false_r.
Qed.

Lemma parseInt_digits (sign : Z) (cs : list ascii) (n : Z) :
  Spec.decimal_digits cs = Some n ->
  (let '(radix, cs') := strip_prefix cs in
   (fun v => sign * v) <$> digits_prefix radix None cs') = Some (sign * n).
Proof.
  intros Hn. pose proof (decimal_digits_prefix cs n Hn) as Hp.
  unfold Spec.decimal_digits in Hn. destruct cs as [|c cs]; [done|].
  destruct (forallb _ _) eqn:Hall; [|done].
  rewrite strip_prefix_decimal by done. by rewrite Hp.
Qed.

(** [parseInt] reads an integer literal as the integer it writes. *)
Lemma parseInt_integer_literal (text : string) (n : Z) :
  Spec.integer_literal text = Some n -> parseInt text = Some n.
Proof.
  unfold Spec.integer_literal, parseInt. destruct (chars text) as [|c cs]; [done|].
  destruct (Ascii.eqb_spec c "-"%char) as [->|Hminus].
  - destruct (Spec.decimal_digits cs) as [m|] eqn:Hm; [|done]. intros [= <-].
    cbn [skip_white_space]. change (is_white_space "-") with false. cbn iota.
    unfold strip_sign. change (Ascii.eqb "-" "-") with true. cbn iota.
    by rewrite (parseInt_digits (-1) cs m Hm).
  - intros Hn. pose proof (decimal_digits_head c cs n Hn) as Hc.
    cbn [skip_white_space]. rewrite (digit_not_space c Hc).
    unfold strip_sign. rewrite (digit_not_char c "-"%char), (digit_not_char c "+"%char) by done.
    rewrite (parseInt_digits 1 (c :: cs) n Hn). f_equal. lia.
Qed.

End BuiltinFacts.

(** ** Properties of the handlers *)

(** Unfolds the plumbing of a handler body down to the file-system calls. *)
Ltac run_handler :=
  unfold try_catch, mbind, M_bind, mret, M_ret, throw, lift,
    Fs.existsSync, Fs.readdirSync, Fs.statSync, Fs.unlinkSync, Fs.mkdirSync,
    fileMetadata_get, fileMetadata_set, fileMetadata_delete, with_metadata;
  cbn beta iota.

Section Search.
Context `{engine : Builtins} (env : Env).

Lemma array_filter_ext {A : Type} (f g : A -> Result bool) (l : list A) :
  (forall x, f x = g x) -> array_filter f l = array_filter g l.
Proof.
  intros Hfg. induction l as [|x l IH]; [done|].
  cbn [array_filter]. by rewrite Hfg, IH.
Qed.

Lemma search_filter_congr (q q' : SearchQuery) (file : FileEntry) :
  query_rejects q file = query_rejects q' file ->
  type_rejects q file = type_rejects q' file ->
  minSize_rejects q file = minSize_rejects q' file ->
  maxSize_rejects q file = maxSize_rejects q' file ->
  dateFrom_rejects q file = dateFrom_rejects q' file ->
  dateTo_rejects q file = dateTo_rejects q' file ->
  search_filter q file = search_filter q' file.
Proof. unfold search_filter. by intros -> -> -> -> -> ->. Qed.

Lemma get_files_search_ext (io : IO) (q q' : SearchQuery) (w : World) :
  (forall file, search_filter q file = search_filter q' file) ->
  get_files_search env io q w = get_files_search env io q' w.
Proof.
  intros Hq. unfold get_files_search. run_handler.
  destruct (negb _); [done|].
  destruct (readdir_error io); [done|].
  destruct (dirs w !! cwdUploads env); [|done].
  by rewrite (array_filter_ext _ _ _ Hq).
Qed.

Lemma minSize_rejects_nan (q : SearchQuery) (text : string) (file : FileEntry) :
  minSize q = Some text -> JS.parseInt text = None -> minSize_rejects q file = false.
Proof.
  intros Hq Hnan. unfold minSize_rejects, JS.truthy_value. rewrite Hq.
  destruct (JS.truthy _); [|done]. rewrite Hnan. apply lt_nan_r.
Qed.

Lemma maxSize_rejects_nan (q : SearchQuery) (text : string) (file : FileEntry) :
  maxSize q = Some text -> JS.parseInt text = None -> maxSize_rejects q file = false.
Proof.
  intros Hq Hnan. unfold maxSize_rejects, JS.truthy_value. rewrite Hq.
  destruct (JS.truthy _); [|done]. by rewrite Hnan.
Qed.

Lemma dateFrom_rejects_nan (q : SearchQuery) (text : string) (file : FileEntry) :
  dateFrom q = Some text -> Date_parse text = None -> dateFrom_rejects q file = false.
Proof.
  intros Hq Hnan. unfold dateFrom_rejects, JS.truthy_value. rewrite Hq.
  destruct (JS.truthy _); [|done]. rewrite Hnan. apply lt_nan_r.
Qed.

Lemma dateTo_rejects_nan (q : SearchQuery) (text : string) (file : FileEntry) :
  dateTo q = Some text -> Date_parse text = None -> dateTo_rejects q file = false.
Proof.
  intros Hq Hnan. unfold dateTo_rejects, JS.truthy_value. rewrite Hq.
  destruct (JS.truthy _); [|done]. by rewrite Hnan.
Qed.

(** C1, as the code has it: a date bound that [Date.parse] cannot read
    makes the comparison with every entry's creation date false, so the
    [return false] of that bound is never taken: no entry is excluded by
    it, and the search answers exactly as it does without the bound. *)
Theorem unparseable_date_bound_excludes_nothing
  (io : IO) (q : SearchQuery) (text : string) (w : World) :
  Date_parse text = None ->
  (forall file, JS.lt (created <$> record file) (Date_parse text) = false
                /\ dateFrom_rejects (Spec.with_dateFrom (Some text) q) file = false)
  /\ (forall file, JS.gt (created <$> record file) (Date_parse text) = false
                   /\ dateTo_rejects (Spec.with_dateTo (Some text) q) file = false)
  /\ get_files_search env io (Spec.with_dateFrom (Some text) q) w
     = get_files_search env io (Spec.with_dateFrom None q) w
  /\ get_files_search env io (Spec.with_dateTo (Some text) q) w
     = get_files_search env io (Spec.with_dateTo None q) w.
Proof.
  intros Hnan.
  assert (Hfrom : forall file,
            dateFrom_rejects (Spec.with_dateFrom (Some text) q) file = false)
    by (intros; by eapply dateFrom_rejects_nan).
  assert (Hto : forall file,
            dateTo_rejects (Spec.with_dateTo (Some text) q) file = false)
    by (intros; by eapply dateTo_rejects_nan).
  split; [|split; [|split]].
  - intros file. split; [rewrite Hnan; apply lt_nan_r | apply Hfrom].
  - intros file. split; [by rewrite Hnan | apply Hto].
  - apply get_files_search_ext. intros file.
    apply search_filter_congr; try reflexivity. by rewrite Hfrom.
  - apply get_files_search_ext. intros file.
    apply search_filter_congr; try reflexivity. by rewrite Hto.
Qed.

(** C10: a size bound on which [parseInt] gives NaN excludes no entry,
    whatever its size, and the search answers exactly as it does without
    the bound. *)
Theorem unparseable_size_bound_excludes_nothing
  (io : IO) (q : SearchQuery) (text : string) (w : World) :
  JS.parseInt text = None ->
  (forall file, minSize_rejects (Spec.with_minSize (Some text) q) file = false)
  /\ (forall file, maxSize_rejects (Spec.with_maxSize (Some text) q) file = false)
  /\ get_files_search env io (Spec.with_minSize (Some text) q) w
     = get_files_search env io (Spec.with_minSize None q) w
  /\ get_files_search env io (Spec.with_maxSize (Some text) q) w
     = get_files_search env io (Spec.with_maxSize None q) w.
Proof.
  intros Hnan.
  assert (Hmin : forall file,
            minSize_rejects (Spec.with_minSize (Some text) q) file = false)
    by (intros; by eapply minSize_rejects_nan).
  assert (Hmax : forall file,
            maxSize_rejects (Spec.with_maxSize (Some text) q) file = false)
    by (intros; by eapply maxSize_rejects_nan).
  split; [done|split; [done|split]].
  - apply get_files_search_ext. intros file.
    apply search_filter_congr; try reflexivity. by rewrite Hmin.
  - apply get_files_search_ext. intros file.
    apply search_filter_congr; try reflexivity. by rewrite Hmax.
Qed.

Lemma integer_literal_nonempty (text : string) (n : Z) :
  Spec.integer_literal text = Some n -> text <> "".
Proof. by intros Hn ->. Qed.

Lemma minSize_rejects_bound (q : SearchQuery) (file : FileEntry) (n : Z) (lo : option Z) :
  size <$> record file = Some n ->
  Spec.size_bound (minSize q) = Some lo ->
  minSize_rejects q file = false <-> Spec.at_least lo n.
Proof.
  intros Hn Hlo. unfold minSize_rejects, Spec.size_bound in *.
  destruct (minSize q) as [text|].
  - destruct (Spec.integer_literal text) as [a|] eqn:Ha; [|done].
    injection Hlo as <-.
    rewrite truthy_value_nonempty by (by eapply integer_literal_nonempty).
    rewrite (parseInt_integer_literal text a Ha), Hn. apply lt_false_iff.
  - by injection Hlo as <-.
Qed.

Lemma maxSize_rejects_bound (q : SearchQuery) (file : FileEntry) (n : Z) (hi : option Z) :
  size <$> record file = Some n ->
  Spec.size_bound (maxSize q) = Some hi ->
  maxSize_rejects q file = false <-> Spec.at_most hi n.
Proof.
  intros Hn Hhi. unfold maxSize_rejects, Spec.size_bound in *.
  destruct (maxSize q) as [text|].
  - destruct (Spec.integer_literal text) as [b|] eqn:Hb; [|done].
    injection Hhi as <-.
    rewrite truthy_value_nonempty by (by eapply integer_literal_nonempty).
    rewrite (parseInt_integer_literal text b Hb), Hn. apply gt_false_iff.
  - by injection Hhi as <-.
Qed.

(** C8, as the code has it: for an entry whose record has size [n] and
    bounds written as integers, the two size tests let the entry through
    exactly when [minSize <= n] and [n <= maxSize], a bound that is absent
    imposing nothing; an entry whose size equals a bound passes. *)
Theorem size_filter_inclusive
  (q : SearchQuery) (file : FileEntry) (n : Z) (lo hi : option Z) :
  size <$> record file = Some n ->
  Spec.size_bound (minSize q) = Some lo ->
  Spec.size_bound (maxSize q) = Some hi ->
  (minSize_rejects q file = false /\ maxSize_rejects q file = false)
  <-> (Spec.at_least lo n /\ Spec.at_most hi n).
Proof.
  intros Hn Hlo Hhi.
  by rewrite (minSize_rejects_bound q file n lo), (maxSize_rejects_bound q file n hi).
Qed.

End Search.

Section Directory.

Lemma lookup_file_remove (name : string) (d : Dir) :
  Fs.lookup_file name (Fs.remove_file name d) = None.
Proof.
  unfold Fs.lookup_file, Fs.remove_file.
  induction d as [|[name' st] d IH]; [done|].
  cbn [List.filter fst]. destruct (String.eqb name name') eqn:E; cbn [negb]; [done|].
  cbn [find fst]. by rewrite E.
Qed.

Lemma lookup_file_put (name : string) (st : Stats) (d : Dir) :
  Fs.lookup_file name (Fs.put_file name st d) = Some st.
Proof.
  unfold Fs.lookup_file.
  induction d as [|[name' st'] d IH]; cbn [Fs.put_file].
  - cbn. by rewrite String.eqb_refl.
  - destruct (String.eqb name name') eqn:E; cbn [find fst].
    + by rewrite String.eqb_refl.
    + by rewrite E.
Qed.

Lemma exists_in_dir (dir : string) (w : World) :
  Fs.exists_in (PDir dir) w = true <-> is_Some (dirs w !! dir).
Proof. cbn. apply bool_decide_eq_true. Qed.

Lemma exists_in_file (f : FilePath) (w : World) :
  Fs.exists_in (PFile f) w = true
  <-> exists d, dirs w !! dirname f = Some d /\ is_Some (Fs.lookup_file (basename f) d).
Proof.
  cbn. destruct (dirs w !! dirname f) as [d|].
  - rewrite bool_decide_eq_true. split.
    + intros Hf. by exists d.
    + by intros (d' & [= <-] & Hf).
  - split; [done | by intros (d' & Hd & _)].
Qed.

End Directory.

Section Files.
Context `{engine : Builtins} (env : Env).

(** C7: whenever creating the directory succeeds (or it is already there)
    the health check answers 200 with status [healthy] and the time of the
    request, and the upload directory exists afterwards; it answers 500
    only when the directory was missing and could not be created.  The
    metadata map is never touched. *)
Theorem health_creates_directory (io : IO) (w : World) (r : Response) (w' : World) :
  get_health env io w = (r, w') ->
  (mkdir_error io = None \/ Fs.exists_in (PDir (appUploads env)) w = true ->
   r = status_json 200 (BHealthy (now io))
   /\ Fs.exists_in (PDir (appUploads env)) w' = true)
  /\ (status r = 500 ->
      Fs.exists_in (PDir (appUploads env)) w = false /\ is_Some (mkdir_error io))
  /\ (status r = 200 \/ status r = 500)
  /\ fileMetadata w' = fileMetadata w.
Proof.
  unfold get_health. run_handler. cbn [Fs.exists_in].
  destruct (dirs w !! appUploads env) as [d|] eqn:Hd.
  - rewrite bool_decide_eq_true_2 by done. cbn. intros [= <- <-].
    split; [|split; [|split]]; [|done|by left|done].
    intros _. split; [done|]. rewrite Hd. by apply bool_decide_eq_true_2.
  - rewrite bool_decide_eq_false_2 by (by intros [? ?]). cbn.
    destruct (mkdir_error io) as [e|] eqn:He.
    + intros [= <- <-].
      split; [|split; [|split]]; [|done|by right|done].
      by intros [?|?].
    + rewrite Hd. intros [= <- <-].
      split; [|split; [|split]]; [|done|by left|done].
      intros _. split; [done|]. cbn. rewrite lookup_insert_eq.
      by apply bool_decide_eq_true_2.
Qed.

Lemma absent_get_file_metadata (name : string) (w : World) :
  Fs.exists_in (PFile (stored env name)) w = false ->
  get_file_metadata env name w = (Spec.not_found, w).
Proof. intros Habs. unfold get_file_metadata. run_handler. by rewrite Habs. Qed.

Lemma absent_patch_file_metadata (name : string) (req_body : Json.JSValue) (w : World) :
  Fs.exists_in (PFile (stored env name)) w = false ->
  patch_file_metadata env name req_body w = (Spec.not_found, w).
Proof. intros Habs. unfold patch_file_metadata. run_handler. by rewrite Habs. Qed.

Lemma absent_get_download (name : string) (w : World) :
  Fs.exists_in (PFile (stored env name)) w = false ->
  get_download env name w = (Spec.not_found, w).
Proof. intros Habs. unfold get_download. run_handler. by rewrite Habs. Qed.

Lemma absent_delete_file (io : IO) (name : string) (w : World) :
  Fs.exists_in (PFile (stored env name)) w = false ->
  delete_file env io name w = (Spec.not_found, w).
Proof. intros Habs. unfold delete_file. run_handler. by rewrite Habs. Qed.

Lemma delete_file_200 (io : IO) (name : string) (w : World) (r : Response) (w' : World) :
  delete_file env io name w = (r, w') -> status r = 200 ->
  exists d, dirs w !! appUploads env = Some d
    /\ w' = {| dirs := <[appUploads env := Fs.remove_file name d]> (dirs w);
               fileMetadata := delete name (fileMetadata w) |}.
Proof.
  unfold delete_file. run_handler. cbn.
  destruct (dirs w !! appUploads env) as [d|] eqn:Hd; cbn.
  - destruct (bool_decide (is_Some (Fs.lookup_file name d))) eqn:Hf; cbn.
    + destruct (unlink_error io); cbn; [by intros [= <- <-] [=]|].
      rewrite Hd, Hf. intros [= <- <-] _. by exists d.
    + by intros [= <- <-] [=].
  - by intros [= <- <-] [=].
Qed.

(** C6: after a delete answered with 200, the metadata route and the
    download route answer 404 for that name; and every route on one stored
    file (metadata, metadata update, download, delete) tests for the file
    first and answers the same 404, changing nothing, when it is absent. *)
Theorem not_found_after_delete
  (io : IO) (name : string) (w : World) (r : Response) (w' : World) :
  delete_file env io name w = (r, w') -> status r = 200 ->
  (get_file_metadata env name w' = (Spec.not_found, w')
   /\ get_download env name w' = (Spec.not_found, w')
   /\ fileMetadata w' !! name = None)
  /\ forall (io0 : IO) (other : string) (req_body : Json.JSValue) (w0 : World),
       Fs.exists_in (PFile (stored env other)) w0 = false ->
       get_file_metadata env other w0 = (Spec.not_found, w0)
       /\ patch_file_metadata env other req_body w0 = (Spec.not_found, w0)
       /\ get_download env other w0 = (Spec.not_found, w0)
       /\ delete_file env io0 other w0 = (Spec.not_found, w0).
Proof.
  intros Hdel Hok.
  destruct (delete_file_200 io name w r w' Hdel Hok) as (d & Hd & ->).
  assert (Habs : Fs.exists_in (PFile (stored env name))
                   {| dirs := <[appUploads env := Fs.remove_file name d]> (dirs w);
                      fileMetadata := delete name (fileMetadata w) |} = false).
  { cbn. rewrite lookup_insert_eq, lookup_file_remove.
    apply bool_decide_eq_false_2. by intros [? ?]. }
  split.
  - split; [by apply absent_get_file_metadata|].
    split; [by apply absent_get_download|]. cbn. apply lookup_delete_eq.
  - intros io0 other req_body w0 Hw0.
    auto using absent_get_file_metadata, absent_patch_file_metadata,
      absent_get_download, absent_delete_file.
Qed.

End Files.

(** ** Object spread *)

Section Spread.
Import Json.

Lemma has_key_true (k : string) (props : list (string * JSValue)) :
  has_key k props = true <-> In k (keys props).
Proof.
  unfold has_key, keys. rewrite existsb_exists. split.
  - intros ([k' v] & Hin & Heq). apply String.eqb_eq in Heq. cbn in Heq. subst k'.
    apply in_map_iff. by exists (k, v).
  - intros Hin. apply in_map_iff in Hin as ([k' v] & Heq & Hin). cbn in Heq. subst k'.
    exists (k, v). split; [done|]. apply String.eqb_refl.
Qed.

Lemma get_prop_absent (k : string) (props : list (string * JSValue)) :
  ~ In k (keys props) -> get_prop k props = None.
Proof.
  induction props as [|[k' v] props IH]; [done|]. cbn. intros Hnot.
  rewrite IH by tauto.
  destruct (String.eqb_spec k k') as [->|]; [tauto | done].
Qed.

Lemma keys_replace_prop (k : string) (v : JSValue) (props : list (string * JSValue)) :
  keys (replace_prop k v props) = keys props.
Proof.
  induction props as [|[k' v'] props IH]; [done|]. cbn.
  destruct (String.eqb_spec k k') as [->|]; cbn; [done | by f_equal].
Qed.

Lemma get_prop_replace_prop (k k' : string) (v : JSValue) (props : list (string * JSValue)) :
  List.NoDup (keys props) -> In k' (keys props) ->
  get_prop k (replace_prop k' v props)
  = if String.eqb k k' then Some v else get_prop k props.
Proof.
  induction props as [|[k1 v1] props IH]; [done|].
  cbn [keys map fst]. intros Hnd Hin. apply List.NoDup_cons_iff in Hnd as [Hfresh Hnd].
  cbn [replace_prop]. destruct (String.eqb_spec k' k1) as [->|Hne1].
  - cbn [get_prop]. destruct (String.eqb_spec k k1) as [->|Hne].
    + by rewrite get_prop_absent.
    + done.
  - destruct Hin as [Heq|Hin]; [congruence|].
    cbn [get_prop]. rewrite IH by done.
    destruct (String.eqb_spec k k') as [->|Hne]; [done|].
    done.
Qed.

Lemma in_keys_add_prop (k k' : string) (v : JSValue) (props : list (string * JSValue)) :
  In k (keys (add_prop k' v props)) <-> k = k' \/ In k (keys props).
Proof.
  induction props as [|[k1 v1] props IH]; cbn.
  - intuition.
  - destruct (goes_before k' k1); cbn; [intuition|]. rewrite IH. intuition.
Qed.

Lemma NoDup_add_prop (k : string) (v : JSValue) (props : list (string * JSValue)) :
  List.NoDup (keys props) -> ~ In k (keys props) -> List.NoDup (keys (add_prop k v props)).
Proof.
  induction props as [|[k1 v1] props IH]; cbn.
  - intros _ _. apply List.NoDup_cons; [intros [] | apply List.NoDup_nil].
  - intros Hnd Hnot. destruct (goes_before k k1); cbn.
    + by apply List.NoDup_cons.
    + apply List.NoDup_cons_iff in Hnd as [Hfresh Hnd]. apply List.NoDup_cons.
      * rewrite in_keys_add_prop. intros [->|Hin]; tauto.
      * apply IH; tauto.
Qed.

Lemma get_prop_cons (k k' : string) (v : JSValue) (props : list (string * JSValue)) :
  get_prop k ((k', v) :: props)
  = match get_prop k props with
    | Some w => Some w
    | None => if String.eqb k k' then Some v else None
    end.
Proof. reflexivity. Qed.

Lemma get_prop_add_prop (k k' : string) (v : JSValue) (props : list (string * JSValue)) :
  ~ In k' (keys props) ->
  get_prop k (add_prop k' v props)
  = if String.eqb k k' then Some v else get_prop k props.
Proof.
  induction props as [|[k1 v1] props IH]; intros Hnot; [done|].
  cbn [add_prop]. destruct (goes_before k' k1).
  - rewrite get_prop_cons. destruct (String.eqb_spec k k') as [->|Hne].
    + by rewrite get_prop_absent by exact Hnot.
    + generalize (get_prop k ((k1, v1) :: props)). by intros [w|].
  - rewrite !get_prop_cons, IH by (cbn in Hnot; tauto).
    destruct (String.eqb_spec k k') as [->|Hne]; [done|]. done.
Qed.

Lemma set_prop_spec (k k' : string) (v : JSValue) (props : list (string * JSValue)) :
  List.NoDup (keys props) ->
  List.NoDup (keys (set_prop k' v props))
  /\ get_prop k (set_prop k' v props) = if String.eqb k k' then Some v else get_prop k props.
Proof.
  intros Hnd. unfold set_prop. destruct (has_key k' props) eqn:Hk.
  - apply has_key_true in Hk. split.
    + by rewrite keys_replace_prop.
    + by apply get_prop_replace_prop.
  - assert (Hnot : ~ In k' (keys props)).
    { intros Hin. apply has_key_true in Hin. congruence. }
    split; [by apply NoDup_add_prop | by apply get_prop_add_prop].
Qed.

(** Defining a sequence of properties one after the other: each key ends
    with its last definition, and keeps its earlier value when the sequence
    does not define it. *)
Lemma define_all_spec (k : string) (defs props : list (string * JSValue)) :
  List.NoDup (keys props) ->
  List.NoDup (keys (define_all defs props))
  /\ get_prop k (define_all defs props)
     = match get_prop k defs with
       | Some v => Some v
       | None => get_prop k props
       end.
Proof.
  unfold define_all. revert props.
  induction defs as [|[k1 v1] defs IH]; intros props Hnd; [done|].
  cbn [fold_left fst snd get_prop].
  destruct (set_prop_spec k k1 v1 props Hnd) as [Hnd' Hget].
  destruct (IH _ Hnd') as [Hnd'' Hget'']. split; [done|].
  rewrite Hget'', Hget. by destruct (get_prop k defs), (String.eqb k k1).
Qed.

Lemma spread2_spec (k : string) (a b : JSValue) :
  get_prop k (own_props (spread2 a b))
  = match get_prop k (own_props b) with
    | Some v => Some v
    | None => get_prop k (own_props a)
    end.
Proof.
  unfold spread2. cbn [own_props].
  destruct (define_all_spec k (own_props a) [] (List.NoDup_nil _)) as [Hnd Ha].
  destruct (define_all_spec k (own_props b) _ Hnd) as [_ Hb].
  rewrite Hb, Ha. by destruct (get_prop k (own_props a)).
Qed.

End Spread.

Section Metadata.
Context `{engine : Builtins} (env : Env).
Import Json.


End Metadata.

Section Upload.
Context `{engine : Builtins} (env : Env).
Import Json.

(** What multer leaves behind when it has stored the part. *)
Lemma upload_single_stored
  (io : IO) (part : FilePart) (w w1 : World) (file : option ReqFile.t) :
  upload_single env io (Some part) w = (Ok file, w1) ->
  exists st,
    file = Some {| ReqFile.originalname := part_originalname part;
                   ReqFile.filename := storage_filename io part;
                   ReqFile.path := {| dirname := cwdUploads env;
                                      basename := storage_filename io part |} |}
    /\ w1 = {| dirs := <[cwdUploads env :=
                         Fs.put_file (storage_filename io part) st
                           (default [] (dirs w !! cwdUploads env))]> (dirs w);
               fileMetadata := fileMetadata w |}
    /\ stat_size st = part_bytes part.
Proof.
  unfold upload_single, storage_destination, Fs.writeFile. run_handler. cbn.
  destruct (dirs w !! cwdUploads env) as [d|] eqn:Hd; cbn.
  - destruct (write_error io); cbn; [done|]. rewrite Hd.
    intros [= <- <-]. eexists. split; [reflexivity|]. split; reflexivity.
  - destruct (mkdir_error io); cbn; [done|]. rewrite Hd. cbn.
    destruct (write_error io); cbn; [done|]. rewrite lookup_insert_eq.
    intros [= <- <-]. eexists. split; [reflexivity|]. split.
    + unfold Fs.set_dir. cbn. rewrite insert_insert_eq. reflexivity.
    + reflexivity.
Qed.

(** With a stored file, the handler ends in its [catch] when the field
    does not parse, whether or not [statSync] threw before. *)
Lemma upload_handler_parse_error
  (io : IO) (f : ReqFile.t) (text : string) (w : World) :
  text <> "" -> JSON_parse text = None ->
  upload_handler io (Some f) (Some text) w
  = (status_json 500 (BError "Error uploading file"), w).
Proof.
  intros Hne Hbad. unfold upload_handler, getFileMetadata. run_handler.
  rewrite truthy_value_nonempty, Hbad by done.
  destruct (stat_error io); [done|].
  by destruct (dirs w !! _ ≫= _).
Qed.

(** The handler answers 400 in one case only, the missing file. *)
Lemma upload_handler_400
  (io : IO) (file : option ReqFile.t) (field : option string) (w : World) :
  status (fst (upload_handler io file field w)) = 400 <-> file = None.
Proof.
  unfold upload_handler, getFileMetadata. run_handler.
  destruct file as [f|]; [|done]. split; [|done].
  destruct (stat_error io); cbn; [done|].
  destruct (dirs w !! _ ≫= _); cbn; [|done].
  destruct (JS.truthy_value field) as [text|]; cbn; [|done].
  by destruct (JSON_parse text).
Qed.

(** C3, as the code has it: a [metadata] field that is not empty and that
    [JSON.parse] rejects makes the handler answer 500 with the error body
    of its [catch] when a file was uploaded, and 400 only because of the
    missing file when none was; the world is left as the handler found
    it.  Whatever the [metadata] field holds, the handler answers 400
    exactly when the file is missing, and so does the whole route whenever
    the handler is reached; a request without a file always reaches it and
    is answered 400 with the state unchanged. *)
Theorem malformed_metadata_response
  (io : IO) (file : option ReqFile.t) (text : string) (w : World) :
  text <> "" -> JSON_parse text = None ->
  upload_handler io file (Some text) w
  = (match file with
     | Some _ => status_json 500 (BError "Error uploading file")
     | None => status_json 400 (BError "No file uploaded")
     end, w)
  /\ (forall (io0 : IO) (file0 : option ReqFile.t) (field : option string) (w0 : World),
        status (fst (upload_handler io0 file0 field w0)) = 400 <-> file0 = None)
  /\ (forall (io0 : IO) (req : UploadRequest) (w0 w1 : World) (r : Response),
        post_upload env io0 req w0 = (Responded r, w1) ->
        (status r = 400 <-> req_file req = None))
  /\ (forall (io0 : IO) (req : UploadRequest) (w0 : World),
        req_file req = None ->
        post_upload env io0 req w0
        = (Responded (status_json 400 (BError "No file uploaded")), w0)).
Proof.
  intros Hne Hbad. split; [|split; [|split]].
  - destruct file as [f|].
    + by apply upload_handler_parse_error.
    + unfold upload_handler. run_handler. reflexivity.
  - intros io0 file0 field w0. apply upload_handler_400.
  - intros io0 req w0 w1 r. unfold post_upload.
    destruct (req_file req) as [part|] eqn:Hpart.
    + destruct (upload_single env io0 (Some part) w0) as [[file0|e] w2] eqn:Hstored; [|done].
      destruct (upload_single_stored io0 part w0 w2 file0 Hstored) as (st & Hfile & _ & _).
      destruct (upload_handler io0 file0 (req_metadata req) w2) as [r0 w3] eqn:Hhandler.
      intros [= <- <-].
      pose proof (upload_handler_400 io0 file0 (req_metadata req) w2) as H400.
      rewrite Hhandler in H400. cbn [fst] in H400. rewrite H400, Hfile. by split.
    + cbn. intros [= <- <-]. by split.
  - intros io0 req w0 Hnone. unfold post_upload. rewrite Hnone. cbn.
    unfold upload_handler. run_handler. reflexivity.
Qed.

(** C9: when multer has written the part and the [metadata] field is not
    empty and does not parse, the request is answered with the 500 of the
    handler's [catch]; [fileMetadata] is as it was before the request, and
    the stored file is in the upload directory. *)
Theorem malformed_metadata_leaves_orphan
  (io : IO) (req : UploadRequest) (part : FilePart) (text : string)
  (w w1 : World) (file : option ReqFile.t) :
  req_file req = Some part ->
  req_metadata req = Some text -> text <> "" -> JSON_parse text = None ->
  upload_single env io (req_file req) w = (Ok file, w1) ->
  post_upload env io req w
  = (Responded (status_json 500 (BError "Error uploading file")), w1)
  /\ fileMetadata w1 = fileMetadata w
  /\ Fs.exists_in
       (PFile {| dirname := cwdUploads env; basename := storage_filename io part |}) w1
     = true.
Proof.
  intros Hpart Hfield Hne Hbad Hstored. unfold post_upload.
  rewrite Hstored, Hfield. rewrite Hpart in Hstored.
  destruct (upload_single_stored io part w w1 file Hstored) as (st & -> & -> & _).
  rewrite upload_handler_parse_error by done.
  split; [done|]. split; [done|].
  cbn. rewrite lookup_insert_eq, lookup_file_put. by apply bool_decide_eq_true_2.
Qed.

End Upload.

Section UploadThenList.
Context `{engine : Builtins} (env : Env).
Import Json.

(** An upload answered with 200 stored the part and its record. *)
Lemma post_upload_200
  (io : IO) (req : UploadRequest) (w w1 : World) (r : Response) :
  post_upload env io req w = (Responded r, w1) -> status r = 200 ->
  exists part st metadata,
    req_file req = Some part
    /\ r = json (BUploaded (storage_filename io part) metadata)
    /\ originalName metadata = part_originalname part
    /\ size metadata = part_bytes part
    /\ dirs w1 = <[cwdUploads env :=
                    Fs.put_file (storage_filename io part) st
                      (default [] (dirs w !! cwdUploads env))]> (dirs w)
    /\ fileMetadata w1 = <[storage_filename io part := metadata]> (fileMetadata w).
Proof.
  unfold post_upload. destruct (req_file req) as [part|] eqn:Hpart.
  - destruct (upload_single env io (Some part) w) as [[file|e] w0] eqn:Hstored; [|done].
    destruct (upload_single_stored env io part w w0 file Hstored) as (st & -> & -> & Hsize).
    unfold upload_handler, getFileMetadata. run_handler. cbn.
    destruct (stat_error io); cbn; [by intros [= <- <-] [=]|].
    rewrite lookup_insert_eq. cbn. rewrite lookup_file_put. cbn.
    destruct (JS.truthy_value (req_metadata req)) as [text|]; cbn.
    + destruct (JSON_parse text) as [custom|]; cbn; [|by intros [= <- <-] [=]].
      intros [= <- <-] _. exists part, st. eexists.
      split; [done|]. split; [reflexivity|]. by cbn.
    + intros [= <- <-] _. exists part, st. eexists.
      split; [done|]. split; [reflexivity|]. by cbn.
  - cbn. by intros [= <- <-] [=].
Qed.

(** C4: after an upload answered with 200 into an upload directory that
    is missing or empty, a list request whose directory read succeeds
    answers with exactly one entry: its [filename] is the stored name
    returned by the upload, its record is the one returned by the upload,
    and its [originalName] is the name the client gave the file.  Nothing
    is required of the metadata map before the upload. *)
Theorem list_after_upload
  (io io' : IO) (req : UploadRequest) (w w1 : World) (r : Response) :
  default [] (dirs w !! cwdUploads env) = [] ->
  post_upload env io req w = (Responded r, w1) -> status r = 200 ->
  readdir_error io' = None ->
  exists part name metadata,
    req_file req = Some part
    /\ body r = BUploaded name metadata
    /\ get_files env io' w1
       = (json (BFiles [{| filename := name; record := Some metadata |}]), w1)
    /\ originalName metadata = part_originalname part.
Proof.
  intros Hempty Hup Hok Hread.
  destruct (post_upload_200 io req w w1 r Hup Hok)
    as (part & st & metadata & Hpart & -> & Horig & _ & Hdirs & Hmeta).
  exists part, (storage_filename io part), metadata.
  split; [done|]. split; [done|]. split; [|done].
  unfold get_files. run_handler. cbn.
  rewrite Hdirs, lookup_insert_eq, Hempty, Hread. cbn.
  rewrite Hdirs, lookup_insert_eq, Hempty. cbn.
  by rewrite Hmeta, lookup_insert_eq.
Qed.

End UploadThenList.

Section Orphans.
Context `{engine : Builtins} (env : Env).

Lemma array_filter_throws {A : Type} (f : A -> Result bool) (l : list A) (x : A) (e : string) :
  In x l -> f x = Throw e -> exists e', array_filter f l = Throw e'.
Proof.
  induction l as [|y l IH]; [done|]. intros [->|Hin] Hx; cbn [array_filter].
  - rewrite Hx. by exists e.
  - destruct (f y) as [keep|e1]; cbn; [|by exists e1].
    destruct (IH Hin Hx) as [e' ->]. by exists e'.
Qed.

(** C2, where the code departs from it: with a [query], one entry of the
    directory that has no record and whose name does not contain the query
    makes the filter callback throw, and the search answers 500 instead of
    a 200 list. *)
Theorem search_fails_on_unmatched_orphan
  (io : IO) (q : SearchQuery) (w : World) (d : Dir) (text name : string) :
  readdir_error io = None ->
  dirs w !! cwdUploads env = Some d ->
  In name (map fst d) ->
  fileMetadata w !! name = None ->
  JS.truthy_value (query q) = Some text ->
  JS.includes (JS.toLowerCase name) (JS.toLowerCase text) = false ->
  get_files_search env io q w = (status_json 500 (BError "Error searching files"), w).
Proof.
  intros Hread Hd Hin Horphan Hq Hmiss.
  unfold get_files_search. run_handler. cbn.
  rewrite Hd, Hread. cbn. rewrite Hd. cbn.
  set (entries := map (fun name0 => {| filename := name0; record := fileMetadata w !! name0 |})
                    (map fst d)).
  assert (Hentry : In {| filename := name; record := None |} entries).
  { subst entries. apply in_map_iff. exists name. by rewrite Horphan. }
  assert (Hthrow : search_filter q {| filename := name; record := None |} = Throw "TypeError").
  { unfold search_filter, query_rejects. rewrite Hq. cbn [filename]. by rewrite Hmiss. }
  destruct (array_filter_throws _ _ _ _ Hentry Hthrow) as [e' ->]. done.
Qed.

(** Without a query the filter callback reads no custom metadata and
    never throws, with or without a record. *)
Lemma search_filter_without_query (q : SearchQuery) (file : FileEntry) :
  JS.truthy_value (query q) = None ->
  search_filter q file
  = Ok (negb (type_rejects q file || minSize_rejects q file || maxSize_rejects q file
              || dateFrom_rejects q file || dateTo_rejects q file)).
Proof.
  intros Hq. unfold search_filter, query_rejects. rewrite Hq. cbn.
  by destruct (type_rejects q file), (minSize_rejects q file), (maxSize_rejects q file),
    (dateFrom_rejects q file), (dateTo_rejects q file).
Qed.

End Orphans.

(** ** Further properties of the handlers *)

Section DirectoryFrame.

Lemma lookup_file_remove_ne (name other : string) (d : Dir) :
  other <> name -> Fs.lookup_file other (Fs.remove_file name d) = Fs.lookup_file other d.
Proof.
  intros Hne. unfold Fs.lookup_file, Fs.remove_file.
  induction d as [|[name' st] d IH]; [done|].
  cbn [List.filter fst]. destruct (String.eqb_spec name name') as [<-|Hn]; cbn [negb].
  - cbn [find fst]. destruct (String.eqb_spec other name); [done | exact IH].
  - cbn [find fst]. destruct (String.eqb other name'); [done | exact IH].
Qed.

Lemma lookup_file_put_ne (name other : string) (st : Stats) (d : Dir) :
  other <> name -> Fs.lookup_file other (Fs.put_file name st d) = Fs.lookup_file other d.
Proof.
  intros Hne. unfold Fs.lookup_file.
  induction d as [|[name' st'] d IH]; cbn [Fs.put_file].
  - cbn. by destruct (String.eqb_spec other name).
  - destruct (String.eqb_spec name name') as [<-|Hn]; cbn [find fst].
    + by destruct (String.eqb_spec other name).
    + destruct (String.eqb other name'); [done | exact IH].
Qed.

Lemma put_file_names (name : string) (st : Stats) (d : Dir) :
  is_Some (Fs.lookup_file name d) -> map fst (Fs.put_file name st d) = map fst d.
Proof.
  unfold Fs.lookup_file. induction d as [|[name' st'] d IH]; cbn [Fs.put_file find fst].
  - by intros [? ?].
  - destruct (String.eqb_spec name name') as [<-|Hn]; cbn; [done|].
    intros Hd. by rewrite IH.
Qed.

End DirectoryFrame.

Section Frames.
Context `{engine : Builtins} (env : Env).
Import Json.

Lemma get_files_state (io : IO) (w : World) : snd (get_files env io w) = w.
Proof.
  unfold get_files. run_handler. cbn.
  destruct (dirs w !! cwdUploads env) as [d|] eqn:Hd; cbn; [|done].
  destruct (readdir_error io); cbn; [done|]. by rewrite Hd.
Qed.

Lemma get_files_search_state (io : IO) (q : SearchQuery) (w : World) :
  snd (get_files_search env io q w) = w.
Proof.
  unfold get_files_search. run_handler. cbn.
  destruct (dirs w !! cwdUploads env) as [d|] eqn:Hd; cbn; [|done].
  destruct (readdir_error io); cbn; [done|]. rewrite Hd. cbn.
  by destruct (array_filter _ _).
Qed.

Lemma get_file_metadata_state (name : string) (w : World) :
  snd (get_file_metadata env name w) = w.
Proof.
  unfold get_file_metadata. run_handler.
  destruct (Fs.exists_in _ w); cbn; [|done].
  by destruct (fileMetadata w !! name).
Qed.

Lemma get_download_state (name : string) (w : World) :
  snd (get_download env name w) = w.
Proof. unfold get_download. run_handler. by destruct (Fs.exists_in _ w). Qed.

(** The four routes that only read (list, search, metadata, download)
    leave the directories and the metadata map exactly as they found them,
    whatever they answer: a failed read, a missing file or a throwing filter
    callback changes nothing either. *)
Theorem read_only_routes_keep_state
  (io : IO) (q : SearchQuery) (name : string) (w : World) :
  snd (get_files env io w) = w
  /\ snd (get_files_search env io q w) = w
  /\ snd (get_file_metadata env name w) = w
  /\ snd (get_download env name w) = w.
Proof.
  split; [apply get_files_state|].
  split; [apply get_files_search_state|].
  split; [apply get_file_metadata_state | apply get_download_state].
Qed.

(** A delete of a name that is one path segment either answers 200 and
    removes both the file and its record, or answers 404 because the file
    is absent, or answers 500 because [unlinkSync] threw on a file that is
    there; in the last two cases the state is unchanged, so the record is
    never removed while the file stays.  (A name with a separator or a dot
    segment is resolved by [path.join] to another entry, whose record, kept
    under the resolved name, the handler then misses.) *)
Theorem delete_all_or_nothing
  (io : IO) (name : string) (w : World) (r : Response) (w' : World) :
  plain_name name = true ->
  delete_file env io name w = (r, w') ->
  (status r = 200
   /\ Fs.exists_in (PFile (stored env name)) w = true /\ unlink_error io = None
   /\ Fs.exists_in (PFile (stored env name)) w' = false
   /\ fileMetadata w' = delete name (fileMetadata w))
  \/ (status r = 404 /\ Fs.exists_in (PFile (stored env name)) w = false /\ w' = w)
  \/ (status r = 500
      /\ Fs.exists_in (PFile (stored env name)) w = true /\ is_Some (unlink_error io)
      /\ w' = w).
Proof.
  intros _. unfold delete_file. run_handler. cbn.
  destruct (dirs w !! appUploads env) as [d|] eqn:Hd; cbn.
  - destruct (bool_decide (is_Some (Fs.lookup_file name d))) eqn:Hf; cbn.
    + destruct (unlink_error io) as [e|]; cbn.
      * intros [= <- <-]. right. right. by repeat split.
      * rewrite Hd, Hf. intros [= <- <-]. left. cbn.
        rewrite lookup_insert_eq, lookup_file_remove.
        by repeat split.
    + intros [= <- <-]. right. left. by repeat split.
  - intros [= <- <-]. right. left. by repeat split.
Qed.

(** A delete of a name that is one path segment, whatever it answers,
    leaves every other name as it was: its record, and its file in every
    directory. *)
Theorem delete_keeps_other_files
  (io : IO) (name other : string) (w : World) (r : Response) (w' : World) :
  plain_name name = true ->
  delete_file env io name w = (r, w') -> other <> name ->
  fileMetadata w' !! other = fileMetadata w !! other
  /\ forall dir, dirs w' !! dir ≫= Fs.lookup_file other = dirs w !! dir ≫= Fs.lookup_file other.
Proof.
  intros _ Hdel Hne. revert Hdel. unfold delete_file. run_handler. cbn.
  destruct (dirs w !! appUploads env) as [d|] eqn:Hd; cbn.
  - destruct (bool_decide (is_Some (Fs.lookup_file name d))) eqn:Hf; cbn.
    + destruct (unlink_error io) as [e|]; cbn; [by intros [= <- <-]|].
      rewrite Hd, Hf. intros [= <- <-]. cbn. split.
      * by apply lookup_delete_ne.
      * intros dir. destruct (decide (dir = appUploads env)) as [->|Hdir].
        -- rewrite lookup_insert_eq, Hd. cbn. by apply lookup_file_remove_ne.
        -- by rewrite lookup_insert_ne.
    + by intros [= <- <-].
  - by intros [= <- <-].
Qed.

(** A file without a record (what a restart leaves behind): the metadata
    route and the update route answer 404 with their own message and
    change nothing, while the download route serves the file. *)
Theorem file_without_record
  (name : string) (req_body : JSValue) (w : World) :
  Fs.exists_in (PFile (stored env name)) w = true ->
  fileMetadata w !! name = None ->
  get_file_metadata env name w = (status_json 404 (BError "File metadata not found"), w)
  /\ patch_file_metadata env name req_body w
     = (status_json 404 (BError "File metadata not found"), w)
  /\ get_download env name w = (json (BAttachment (stored env name)), w).
Proof.
  intros Hfile Hrecord. split; [|split].
  - unfold get_file_metadata. run_handler. rewrite Hfile. cbn. by rewrite Hrecord.
  - unfold patch_file_metadata. run_handler. rewrite Hfile. cbn. by rewrite Hrecord.
  - unfold get_download. run_handler. by rewrite Hfile.
Qed.

(** A health check never removes or empties a directory that exists and
    touches no other path than the upload directory; once one has answered
    200, every later one answers 200 and changes nothing, whatever the host
    would answer to [mkdirSync]. *)
Theorem health_keeps_directories
  (io : IO) (w : World) (r : Response) (w1 : World) :
  get_health env io w = (r, w1) ->
  (forall dir d, dirs w !! dir = Some d -> dirs w1 !! dir = Some d)
  /\ (forall dir, dir <> appUploads env -> dirs w1 !! dir = dirs w !! dir)
  /\ (status r = 200 ->
      forall io', get_health env io' w1 = (status_json 200 (BHealthy (now io')), w1)).
Proof.
  unfold get_health. run_handler. cbn.
  destruct (dirs w !! appUploads env) as [d0|] eqn:Hd; cbn.
  - intros [= <- <-]. split; [done|]. split; [done|].
    intros _ io'. run_handler. cbn. by rewrite Hd.
  - destruct (mkdir_error io) as [e|]; cbn.
    + intros [= <- <-]. split; [done|]. split; [done|]. by intros [=].
    + rewrite Hd. intros [= <- <-]. cbn. split; [|split].
      * intros dir d Hdir. rewrite lookup_insert_ne; [done|]. congruence.
      * intros dir Hdir. by rewrite lookup_insert_ne.
      * intros _ io'. run_handler. cbn. by rewrite lookup_insert_eq.
Qed.

End Frames.

Section Strings.
Import JS.

Lemma chars_append (a b : string) : chars (a +:+ b) = chars a ++ chars b.
Proof.
  unfold chars. induction a as [|c a IH]; [done|].
  change (String c a +:+ b) with (String c (a +:+ b)).
  cbn [list_ascii_of_string app]. by f_equal.
Qed.

Lemma append_cancel_l (s a b : string) : s +:+ a = s +:+ b -> a = b.
Proof. apply (inj (String.append s)). Qed.

Lemma str_chars (s : string) : str (chars s) = s.
Proof. apply string_of_list_ascii_of_string. Qed.

Lemma chars_str (cs : list ascii) : chars (str cs) = cs.
Proof. apply list_ascii_of_string_of_list_ascii. Qed.

Lemma toLowerCase_empty (text : string) : toLowerCase text = "" -> text = "".
Proof.
  unfold toLowerCase. intros Hlow.
  assert (Hcs : map lower_char (chars text) = []).
  { rewrite <- (chars_str (map lower_char (chars text))). by rewrite Hlow. }
  rewrite <- (str_chars text). by destruct (chars text).
Qed.

Lemma after_last_dot_dotless (cs : list ascii) :
  dotless cs -> Fs.after_last_dot cs = None.
Proof.
  induction 1 as [|c cs Hc _ IH]; [done|]. cbn. rewrite IH.
  by destruct (Ascii.eqb_spec c "."%char).
Qed.

Lemma after_last_dot_app (prefix cs : list ascii) :
  dotless prefix -> Fs.after_last_dot (prefix ++ cs) = Fs.after_last_dot cs.
Proof.
  induction 1 as [|c prefix Hc _ IH]; [done|]. cbn. rewrite IH.
  destruct (Fs.after_last_dot cs); [done|].
  by destruct (Ascii.eqb_spec c "."%char).
Qed.

Lemma pretty_N_go_dotless (x : N) (s : string) :
  dotless (chars s) -> dotless (chars (pretty_N_go x s)).
Proof.
  revert s. induction (N.lt_wf_0 x) as [x _ IH]. intros s Hs.
  destruct (decide (x = 0%N)) as [->|Hx]; [by rewrite pretty_N_go_0|].
  rewrite pretty_N_go_step by lia. apply IH.
  - apply N.div_lt; lia.
  - cbn. apply Forall_cons. split; [|done].
    unfold pretty_N_char. by repeat case_match.
Qed.

Lemma pretty_N_dotless (x : N) : dotless (chars (pretty x)).
Proof.
  unfold pretty, pretty_N. case_decide.
  - cbn. by repeat constructor.
  - apply pretty_N_go_dotless. constructor.
Qed.

(** The decimal rendering of an integer has no dot. *)
Lemma number_to_string_dotless (n : Z) : dotless (chars (number_to_string n)).
Proof.
  unfold number_to_string, pretty, pretty_Z. destruct n as [|p|p].
  - cbn. by repeat constructor.
  - apply pretty_N_dotless.
  - rewrite chars_append. apply Forall_app. split.
    + cbn. by repeat constructor.
    + apply pretty_N_dotless.
Qed.

End Strings.

Section UploadMore.
Context `{engine : Builtins} (env : Env).
Import Json.

(** The value that the handler stores as [customMetadata]: the parsed
    field, or the empty object for an absent or empty field. *)
Lemma upload_handler_stored
  (io : IO) (f : ReqFile.t) (field : option string) (custom : JSValue) (st : Stats) (w : World) :
  stat_error io = None ->
  dirs w !! dirname (ReqFile.path f) ≫= Fs.lookup_file (basename (ReqFile.path f)) = Some st ->
  match JS.truthy_value field with
  | Some text => JSON_parse text
  | None => Some (JObj [])
  end = Some custom ->
  exists metadata,
    upload_handler io (Some f) field w
    = (json (BUploaded (ReqFile.filename f) metadata),
       {| dirs := dirs w;
          fileMetadata := <[ReqFile.filename f := metadata]> (fileMetadata w) |})
    /\ size metadata = stat_size st /\ created metadata = birthtime st
    /\ modified metadata = mtime st
    /\ originalName metadata = ReqFile.originalname f
    /\ customMetadata metadata = custom.
Proof.
  intros Hstat Hfile Hcustom. unfold upload_handler, getFileMetadata. run_handler.
  rewrite Hstat, Hfile. cbn.
  destruct (JS.truthy_value field) as [text|].
  - rewrite Hcustom. cbn. eexists. split; [reflexivity|]. by cbn.
  - injection Hcustom as <-. cbn. eexists. split; [reflexivity|]. by cbn.
Qed.

(** An upload succeeds whenever the host does not fail and the [metadata]
    field is absent, empty or valid JSON: the answer is 200 with the stored
    name [<now>-<originalname>] and the record; the file is in the upload
    directory with the size of the part; the record has the size and the
    two times that the file system reports for that file, the client's
    name for it and the parsed field (or the empty object) as
    [customMetadata]; the record is stored under the stored name. *)
Theorem upload_stores_file_and_record
  (io : IO) (req : UploadRequest) (part : FilePart) (custom : JSValue) (w : World) :
  req_file req = Some part ->
  write_error io = None -> stat_error io = None ->
  (mkdir_error io = None \/ Fs.exists_in (PDir (cwdUploads env)) w = true) ->
  match JS.truthy_value (req_metadata req) with
  | Some text => JSON_parse text
  | None => Some (JObj [])
  end = Some custom ->
  exists metadata st w1,
    post_upload env io req w
    = (Responded (json (BUploaded (storage_filename io part) metadata)), w1)
    /\ dirs w1 !! cwdUploads env ≫= Fs.lookup_file (storage_filename io part) = Some st
    /\ stat_size st = part_bytes part
    /\ size metadata = part_bytes part
    /\ created metadata = birthtime st
    /\ modified metadata = mtime st
    /\ originalName metadata = part_originalname part
    /\ customMetadata metadata = custom
    /\ fileMetadata w1 = <[storage_filename io part := metadata]> (fileMetadata w)
    /\ Fs.exists_in
         (PFile {| dirname := cwdUploads env; basename := storage_filename io part |}) w1
       = true.
Proof.
  intros Hpart Hwrite Hstat Hdir Hcustom.
  assert (Hstored : exists file w0,
            upload_single env io (Some part) w = (Ok (Some file), w0)
            /\ ReqFile.filename file = storage_filename io part
            /\ ReqFile.originalname file = part_originalname part
            /\ ReqFile.path file
               = {| dirname := cwdUploads env; basename := storage_filename io part |}
            /\ fileMetadata w0 = fileMetadata w
            /\ exists st, dirs w0 !! cwdUploads env ≫= Fs.lookup_file (storage_filename io part)
                          = Some st
                          /\ stat_size st = part_bytes part).
  { unfold upload_single, storage_destination, Fs.writeFile. run_handler. cbn.
    destruct (dirs w !! cwdUploads env) as [d|] eqn:Hd; cbn.
    - rewrite Hwrite, Hd. cbn. do 2 eexists. split; [reflexivity|]. cbn.
      repeat (split; [reflexivity|]). eexists. rewrite lookup_insert_eq. cbn.
      rewrite lookup_file_put. split; [reflexivity|]. by cbn.
    - destruct Hdir as [Hmk|Hex];
        [|apply exists_in_dir in Hex; rewrite Hd in Hex; by destruct Hex].
      rewrite Hmk, Hd. cbn. rewrite Hwrite, lookup_insert_eq. cbn.
      do 2 eexists. split; [reflexivity|]. cbn.
      repeat (split; [reflexivity|]). eexists. rewrite lookup_insert_eq. cbn.
      rewrite String.eqb_refl. split; [reflexivity|]. by cbn. }
  destruct Hstored as (file & w0 & Hsingle & Hname & Horig & Hpath & Hmeta & st & Hst & Hsize).
  destruct (upload_handler_stored io file (req_metadata req) custom st w0 Hstat)
    as (metadata & Hhandler & Hs & Hb & Hm & Ho & Hc).
  { by rewrite Hpath. }
  { done. }
  exists metadata, st. eexists. unfold post_upload. rewrite Hpart, Hsingle, Hhandler, Hname.
  split; [reflexivity|]. cbn [dirs fileMetadata].
  split; [done|]. split; [done|]. split; [congruence|]. split; [done|]. split; [done|].
  split; [congruence|]. split; [done|]. split; [by rewrite Hmeta|].
  cbn. destruct (dirs w0 !! cwdUploads env) as [d0|]; [|done]. cbn in Hst.
  rewrite Hst. by apply bool_decide_eq_true_2.
Qed.

(** After an upload answered with 200, the metadata route answers 200
    with the very record of the upload response, provided the two spellings
    of the upload directory name the same directory. *)
Theorem metadata_after_upload
  (io : IO) (req : UploadRequest) (w w1 : World) (r : Response) :
  cwdUploads env = appUploads env ->
  post_upload env io req w = (Responded r, w1) -> status r = 200 ->
  exists name metadata,
    body r = BUploaded name metadata
    /\ get_file_metadata env name w1 = (json (BMetadata metadata), w1).
Proof.
  intros Hsame Hup Hok.
  destruct (post_upload_200 env io req w w1 r Hup Hok)
    as (part & st & metadata & Hpart & -> & _ & _ & Hdirs & Hmeta).
  exists (storage_filename io part), metadata. split; [done|].
  unfold get_file_metadata. run_handler. cbn.
  rewrite <- Hsame, Hdirs, lookup_insert_eq, lookup_file_put. cbn.
  by rewrite Hmeta, lookup_insert_eq.
Qed.

(** Within one reading of the clock, two parts get the same stored name
    exactly when the client gave them the same name: distinct original
    names never collide. *)
Theorem stored_names_collide_only_on_equal_names (io : IO) (a b : FilePart) :
  storage_filename io a = storage_filename io b
  <-> part_originalname a = part_originalname b.
Proof.
  unfold storage_filename. split.
  - intros Heq. apply append_cancel_l in Heq. by apply append_cancel_l in Heq.
  - by intros ->.
Qed.

(** What an upload answered with 200 leaves: the file of the stored name
    with the size of the part, and a record of that size under that
    name. *)
Lemma post_upload_200_file
  (io : IO) (req : UploadRequest) (w w1 : World) (r : Response) :
  post_upload env io req w = (Responded r, w1) -> status r = 200 ->
  exists part st metadata,
    req_file req = Some part
    /\ r = json (BUploaded (storage_filename io part) metadata)
    /\ stat_size st = part_bytes part
    /\ size metadata = part_bytes part
    /\ dirs w1 = <[cwdUploads env :=
                    Fs.put_file (storage_filename io part) st
                      (default [] (dirs w !! cwdUploads env))]> (dirs w)
    /\ fileMetadata w1 = <[storage_filename io part := metadata]> (fileMetadata w).
Proof.
  unfold post_upload. destruct (req_file req) as [part|] eqn:Hpart.
  - destruct (upload_single env io (Some part) w) as [[file|e] w0] eqn:Hstored; [|done].
    destruct (upload_single_stored env io part w w0 file Hstored) as (st & -> & -> & Hsize).
    unfold upload_handler, getFileMetadata. run_handler. cbn.
    destruct (stat_error io); cbn; [by intros [= <- <-] [=]|].
    rewrite lookup_insert_eq. cbn. rewrite lookup_file_put. cbn.
    destruct (JS.truthy_value (req_metadata req)) as [text|]; cbn.
    + destruct (JSON_parse text) as [custom|]; cbn; [|by intros [= <- <-] [=]].
      intros [= <- <-] _. exists part, st. eexists.
      split; [done|]. split; [reflexivity|]. by cbn.
    + intros [= <- <-] _. exists part, st. eexists.
      split; [done|]. split; [reflexivity|]. by cbn.
  - cbn. by intros [= <- <-] [=].
Qed.

(** An upload answered with 200 whose stored name is already taken in the
    upload directory overwrites the file of that name: the directory has
    the same names as before, the file of that name now has the size of
    the new part whatever it held, every other file is as it was, and the
    record of that name is the new one, with the new size. *)
Theorem upload_overwrites_taken_name
  (io : IO) (req : UploadRequest) (part : FilePart) (d : Dir) (old : Stats)
  (w w1 : World) (r : Response) :
  post_upload env io req w = (Responded r, w1) -> status r = 200 ->
  req_file req = Some part ->
  dirs w !! cwdUploads env = Some d ->
  Fs.lookup_file (storage_filename io part) d = Some old ->
  exists d1 st metadata,
    dirs w1 !! cwdUploads env = Some d1
    /\ map fst d1 = map fst d
    /\ Fs.lookup_file (storage_filename io part) d1 = Some st
    /\ stat_size st = part_bytes part
    /\ (forall other, other <> storage_filename io part ->
          Fs.lookup_file other d1 = Fs.lookup_file other d)
    /\ body r = BUploaded (storage_filename io part) metadata
    /\ size metadata = part_bytes part
    /\ fileMetadata w1 !! storage_filename io part = Some metadata.
Proof.
  intros Hup Hok Hpart Hd Htaken.
  destruct (post_upload_200_file io req w w1 r Hup Hok)
    as (part' & st & metadata & Hpart' & -> & Hsize & Hmsize & Hdirs & Hmeta).
  assert (part' = part) as -> by congruence.
  rewrite Hd in Hdirs. cbn in Hdirs.
  eexists. exists st, metadata. rewrite Hdirs, lookup_insert_eq, Hmeta, lookup_insert_eq.
  split; [reflexivity|]. split; [apply put_file_names; by rewrite Htaken|].
  split; [apply lookup_file_put|]. split; [done|].
  split; [intros other Hother; by apply lookup_file_put_ne|]. done.
Qed.

End UploadMore.

Section UploadType.
Context `{engine : Builtins} (env : Env).
Import Json.

Lemma stored_name_not_dots (prefix name : string) :
  dotless (JS.chars prefix) -> String.eqb (prefix +:+ "-" +:+ name) ".." = false.
Proof.
  intros Hp. destruct (String.eqb_spec (prefix +:+ "-" +:+ name) "..") as [Heq|]; [|done].
  apply (f_equal JS.chars) in Heq. rewrite !chars_append in Heq.
  destruct (JS.chars prefix) as [|p cs]; [done|].
  apply Forall_cons in Hp as [Hp _]. cbn in Heq. congruence.
Qed.

(** [path.extname] of a stored name looks only at the client's name: the
    timestamp and the dash in front of it hold no dot. *)
Lemma extname_stored_name (prefix name : string) :
  dotless (JS.chars prefix) ->
  Fs.extname (prefix +:+ "-" +:+ name)
  = match Fs.after_last_dot (JS.chars name) with
    | Some ext => JS.str ("."%char :: ext)
    | None => ""
    end.
Proof.
  intros Hp. unfold Fs.extname. rewrite stored_name_not_dots by done.
  rewrite !chars_append. change (JS.chars "-") with ["-"%char].
  destruct (JS.chars prefix) as [|p cs]; [done|].
  apply Forall_cons in Hp as [_ Hcs]. cbn [app].
  change (cs ++ "-"%char :: JS.chars name) with (cs ++ ["-"%char] ++ JS.chars name).
  rewrite app_assoc, after_last_dot_app; [done|].
  apply Forall_app. split; [done|]. by repeat constructor.
Qed.

(** The [type] of an uploaded record is the part of the client's file
    name after its last dot, and ['unknown'] when the name has no dot or
    ends with one.  The timestamp in front makes this hold for names that
    open with their only dot too: [.env] is stored with type [env]. *)
Theorem type_is_last_extension
  (io : IO) (req : UploadRequest) (w w1 : World) (r : Response) :
  post_upload env io req w = (Responded r, w1) -> status r = 200 ->
  exists part name metadata,
    req_file req = Some part
    /\ body r = BUploaded name metadata
    /\ type metadata
       = match last_extension (part_originalname part) with
         | Some ext => if String.eqb ext "" then "unknown" else ext
         | None => "unknown"
         end.
Proof.
  unfold post_upload. destruct (req_file req) as [part|] eqn:Hpart.
  - destruct (upload_single env io (Some part) w) as [[file|e] w0] eqn:Hstored; [|done].
    destruct (upload_single_stored env io part w w0 file Hstored) as (st & -> & -> & _).
    unfold upload_handler, getFileMetadata. run_handler. cbn.
    destruct (stat_error io); cbn; [by intros [= <- <-] [=]|].
    rewrite lookup_insert_eq. cbn. rewrite lookup_file_put. cbn.
    assert (Htype :
      (if String.eqb (JS.str (tail (JS.chars (Fs.extname (storage_filename io part))))) ""
       then "unknown"
       else JS.str (tail (JS.chars (Fs.extname (storage_filename io part)))))
      = match last_extension (part_originalname part) with
        | Some ext => if String.eqb ext "" then "unknown" else ext
        | None => "unknown"
        end).
    { unfold storage_filename, last_extension.
      rewrite extname_stored_name by apply number_to_string_dotless.
      destruct (Fs.after_last_dot (JS.chars (part_originalname part))) as [ext|]; cbn [fmap option_fmap option_map].
      - by rewrite chars_str.
      - reflexivity. }
    destruct (JS.truthy_value (req_metadata req)) as [text|]; cbn.
    + destruct (JSON_parse text) as [custom|]; cbn; [|by intros [= <- <-] [=]].
      intros [= <- <-] _. exists part. do 2 eexists.
      split; [done|]. split; [reflexivity|]. exact Htype.
    + intros [= <- <-] _. exists part. do 2 eexists.
      split; [done|]. split; [reflexivity|]. exact Htype.
  - cbn. by intros [= <- <-] [=].
Qed.

Lemma delete_file_ok (io : IO) (name : string) (w : World) (d : Dir) :
  dirs w !! appUploads env = Some d ->
  is_Some (Fs.lookup_file name d) ->
  unlink_error io = None ->
  delete_file env io name w
  = (json (BMessage "File deleted successfully"),
     {| dirs := <[appUploads env := Fs.remove_file name d]> (dirs w);
        fileMetadata := delete name (fileMetadata w) |}).
Proof.
  intros Hd Hfile Hunlink. unfold delete_file. run_handler.
  cbn -[Fs.lookup_file Fs.remove_file]. rewrite Hd.
  rewrite bool_decide_eq_true_2 by done. cbn -[Fs.lookup_file Fs.remove_file].
  rewrite Hunlink, Hd. rewrite bool_decide_eq_true_2 by done. reflexivity.
Qed.

Lemma get_files_ok (io : IO) (w : World) (d : Dir) :
  dirs w !! cwdUploads env = Some d ->
  readdir_error io = None ->
  get_files env io w
  = (json (BFiles (map (fun name => {| filename := name; record := fileMetadata w !! name |})
                     (map fst d))), w).
Proof.
  intros Hd Hread. unfold get_files. run_handler. cbn. rewrite Hd. cbn.
  rewrite Hread, Hd. reflexivity.
Qed.

(** Upload, delete, list: after a 200 upload into a missing or empty
    upload directory, deleting the stored name (the host letting
    [unlinkSync] through) answers 200, removes the record, and a list then
    answers 200 with no entry, provided the two spellings of the upload
    directory name the same directory. *)
Theorem upload_then_delete_leaves_nothing
  (io io2 io3 : IO) (req : UploadRequest) (w w1 : World) (r : Response) :
  cwdUploads env = appUploads env ->
  default [] (dirs w !! cwdUploads env) = [] ->
  post_upload env io req w = (Responded r, w1) -> status r = 200 ->
  unlink_error io2 = None -> readdir_error io3 = None ->
  exists name metadata w2,
    body r = BUploaded name metadata
    /\ delete_file env io2 name w1 = (json (BMessage "File deleted successfully"), w2)
    /\ fileMetadata w2 !! name = None
    /\ get_files env io3 w2 = (json (BFiles []), w2).
Proof.
  intros Hsame Hempty Hup Hok Hunlink Hread.
  destruct (post_upload_200 env io req w w1 r Hup Hok)
    as (part & st & metadata & Hpart & -> & _ & _ & Hdirs & Hmeta).
  rewrite Hempty in Hdirs.
  set (name := storage_filename io part) in *.
  assert (Hd1 : dirs w1 !! appUploads env = Some (Fs.put_file name st []))
    by (by rewrite <- Hsame, Hdirs, lookup_insert_eq).
  assert (Hgone : Fs.remove_file name (Fs.put_file name st []) = [])
    by (cbn; by rewrite String.eqb_refl).
  exists name, metadata. eexists. split; [done|]. split; [|split].
  - apply (delete_file_ok io2 name w1 _ Hd1); [|done].
    rewrite lookup_file_put. by eexists.
  - cbn. apply lookup_delete_eq.
  - rewrite (get_files_ok io3 _ []); [done| |done].
    cbn [dirs]. by rewrite <- Hsame, lookup_insert_eq, Hgone.
Qed.

End UploadType.

Section SearchMore.
Context `{engine : Builtins} (env : Env).
Import Json.

Lemma array_filter_all {A : Type} (f : A -> Result bool) (l : list A) :
  (forall x, f x = Ok true) -> array_filter f l = Ok l.
Proof.
  intros Hall. induction l as [|x l IH]; [done|].
  cbn [array_filter]. by rewrite Hall, IH.
Qed.

Lemma array_filter_sublist {A : Type} (f : A -> Result bool) (l r : list A) :
  array_filter f l = Ok r -> sublist r l.
Proof.
  revert r. induction l as [|x l IH]; intros r; cbn [array_filter].
  - intros [= <-]. constructor.
  - destruct (f x) as [keep|e]; cbn; [|done].
    destruct (array_filter f l) as [rest|e]; cbn; [|done].
    intros [= <-]. destruct keep; [apply sublist_skip | apply sublist_cons]; by apply IH.
Qed.

Lemma array_filter_In {A : Type} (f : A -> Result bool) (l r : list A) (x : A) :
  array_filter f l = Ok r -> In x r <-> In x l /\ f x = Ok true.
Proof.
  revert r. induction l as [|y l IH]; intros r; cbn [array_filter].
  - intros [= <-]. cbn. tauto.
  - destruct (f y) as [keep|e] eqn:Hy; cbn; [|done].
    destruct (array_filter f l) as [rest|e]; cbn; [|done].
    intros [= <-]. specialize (IH rest eq_refl). destruct keep; cbn.
    + rewrite IH. split.
      * intros [<-|[Hin Hx]]; [by split; [left|] | by split; [right|]].
      * intros [[<-|Hin] Hx]; [by left | by right].
    + rewrite IH. split.
      * intros [Hin Hx]. by split; [right|].
      * intros [[<-|Hin] Hx]; [congruence | done].
Qed.

Lemma search_filter_true (q : SearchQuery) (file : FileEntry) :
  search_filter q file = Ok true ->
  query_rejects q file = Ok false /\ type_rejects q file = false
  /\ minSize_rejects q file = false /\ maxSize_rejects q file = false
  /\ dateFrom_rejects q file = false /\ dateTo_rejects q file = false.
Proof.
  unfold search_filter. destruct (query_rejects q file) as [[|]|e]; cbn; [done| |done].
  by destruct (type_rejects q file), (minSize_rejects q file), (maxSize_rejects q file),
    (dateFrom_rejects q file), (dateTo_rejects q file).
Qed.

(** What a search answered with a list went through. *)
Lemma get_files_search_list
  (io : IO) (q : SearchQuery) (w : World) (r : Response) (w' : World) (results : list FileEntry) :
  get_files_search env io q w = (r, w') -> body r = BFiles results ->
  exists entries,
    get_files env io w = (json (BFiles entries), w)
    /\ array_filter (search_filter q) entries = Ok results.
Proof.
  unfold get_files_search, get_files. run_handler. cbn.
  destruct (dirs w !! cwdUploads env) as [d|] eqn:Hd; cbn.
  - destruct (readdir_error io); cbn; [by intros [= <- <-] [=]|]. rewrite Hd. cbn.
    destruct (array_filter _ _) as [found|e] eqn:Hfound; cbn; [|by intros [= <- <-] [=]].
    intros [= <- <-] [= <-]. eexists. split; [reflexivity | exact Hfound].
  - intros [= <- <-] [= <-]. exists []. by split.
Qed.

(** A search with no parameter that the filter acts on (each absent or
    empty) answers exactly what the list route answers, when the directory
    can be read. *)
Theorem search_without_filters_is_list (io : IO) (q : SearchQuery) (w : World) :
  no_filter q -> readdir_error io = None ->
  get_files_search env io q w = get_files env io w.
Proof.
  intros (Hq & Ht & Hmin & Hmax & Hfrom & Hto) Hread.
  assert (Hall : forall file, search_filter q file = Ok true).
  { intros file. rewrite search_filter_without_query by done.
    unfold type_rejects, minSize_rejects, maxSize_rejects, dateFrom_rejects, dateTo_rejects.
    by rewrite Ht, Hmin, Hmax, Hfrom, Hto. }
  unfold get_files_search, get_files. run_handler. cbn.
  destruct (dirs w !! cwdUploads env) as [d|] eqn:Hd; cbn; [|done].
  rewrite Hread. cbn. rewrite Hd. cbn. by rewrite array_filter_all.
Qed.

(** A search answered with a list returns entries of the plain listing,
    in the order of the listing, and exactly those on which the filter
    callback returns [true]. *)
Theorem search_results_are_filtered_listing
  (io : IO) (q : SearchQuery) (w : World) (r : Response) (w' : World) (results : list FileEntry) :
  get_files_search env io q w = (r, w') -> body r = BFiles results ->
  exists entries,
    get_files env io w = (json (BFiles entries), w)
    /\ sublist results entries
    /\ forall file, In file results <-> In file entries /\ search_filter q file = Ok true.
Proof.
  intros Hsearch Hbody.
  destruct (get_files_search_list io q w r w' results Hsearch Hbody) as (entries & Hlist & Hfound).
  exists entries. split; [done|]. split.
  - by eapply array_filter_sublist.
  - intros file. by eapply array_filter_In.
Qed.

(** With a [type] parameter, every entry of the answer has a record whose
    [type] is exactly the parameter: files without a record are never
    returned by a search on type. *)
Theorem type_filter_returns_only_that_type
  (io : IO) (q : SearchQuery) (t : string) (w : World) (r : Response) (w' : World)
  (results : list FileEntry) (file : FileEntry) :
  get_files_search env io q w = (r, w') -> body r = BFiles results ->
  qtype q = Some t -> t <> "" ->
  In file results ->
  exists metadata, record file = Some metadata /\ type metadata = t.
Proof.
  intros Hsearch Hbody Ht Hne Hin.
  destruct (get_files_search_list io q w r w' results Hsearch Hbody)
    as (entries & Hlist & Hfound).
  destruct (proj1 (array_filter_In _ _ _ file Hfound) Hin) as [Hlisted Hkeep].
  apply search_filter_true in Hkeep as (_ & Htype & _).
  unfold type_rejects in Htype. rewrite Ht, truthy_value_nonempty in Htype by done.
  apply negb_false_iff, bool_decide_eq_true in Htype.
  destruct (record file) as [metadata|]; [|done].
  exists metadata. split; [done|]. by injection Htype.
Qed.

Lemma query_rejects_same_case (q : SearchQuery) (t1 t2 : string) (file : FileEntry) :
  JS.toLowerCase t1 = JS.toLowerCase t2 ->
  query_rejects (with_query (Some t1) q) file = query_rejects (with_query (Some t2) q) file.
Proof.
  intros Hlow. unfold query_rejects. cbn [query with_query].
  assert (Hempty : JS.truthy (Some t1) = JS.truthy (Some t2)).
  { cbn. destruct (String.eqb_spec t1 "") as [->|H1], (String.eqb_spec t2 "") as [->|H2];
      try done.
    - symmetry in Hlow. by apply toLowerCase_empty in Hlow.
    - by apply toLowerCase_empty in Hlow. }
  unfold JS.truthy_value. rewrite Hempty.
  destruct (JS.truthy (Some t2)); [|done]. by rewrite Hlow.
Qed.

(** The [query] parameter is matched without regard to case: two queries
    that differ only in the case of their letters get the same answer. *)
Theorem query_ignores_case (io : IO) (q : SearchQuery) (t1 t2 : string) (w : World) :
  JS.toLowerCase t1 = JS.toLowerCase t2 ->
  get_files_search env io (with_query (Some t1) q) w
  = get_files_search env io (with_query (Some t2) q) w.
Proof.
  intros Hlow. apply get_files_search_ext. intros file.
  apply search_filter_congr; try reflexivity. by apply query_rejects_same_case.
Qed.

(** A file without a record passes every size and date bound: with no
    [query] and no [type], it is in the answer whatever [minSize],
    [maxSize], [dateFrom] and [dateTo] are. *)
Theorem orphan_passes_size_and_date_bounds
  (io : IO) (q : SearchQuery) (w : World) (d : Dir) (name : string) :
  readdir_error io = None ->
  dirs w !! cwdUploads env = Some d ->
  In name (map fst d) ->
  fileMetadata w !! name = None ->
  JS.truthy_value (query q) = None -> JS.truthy_value (qtype q) = None ->
  exists results,
    get_files_search env io q w = (json (BFiles results), w)
    /\ In {| filename := name; record := None |} results.
Proof.
  intros Hread Hd Hin Horphan Hq Ht.
  set (entries := map (fun name0 => {| filename := name0; record := fileMetadata w !! name0 |})
                    (map fst d)).
  assert (Hok : forall l, exists found, array_filter (search_filter q) l = Ok found).
  { induction l as [|x l [found IH]]; [by exists []|].
    cbn [array_filter]. rewrite search_filter_without_query, IH by done. cbn. by eexists. }
  destruct (Hok entries) as [found Hfound]. exists found. split.
  - unfold get_files_search. run_handler. cbn. rewrite Hd. cbn. rewrite Hread. cbn.
    rewrite Hd. cbn. fold entries. by rewrite Hfound.
  - apply (array_filter_In _ _ _ _ Hfound). split.
    + subst entries. apply in_map_iff. exists name. by rewrite Horphan.
    + rewrite search_filter_without_query by done.
      unfold type_rejects, minSize_rejects, maxSize_rejects, dateFrom_rejects, dateTo_rejects.
      rewrite Ht. cbn [record fmap option_fmap option_map].
      destruct (JS.truthy_value (minSize q)), (JS.truthy_value (maxSize q)),
        (JS.truthy_value (dateFrom q)), (JS.truthy_value (dateTo q)); cbn;
        rewrite ?lt_nan_r; try reflexivity;
        repeat match goal with |- context [JS.parseInt ?s] => destruct (JS.parseInt s) end;
        repeat match goal with |- context [Date_parse ?s] => destruct (Date_parse s) end;
        reflexivity.
Qed.

(** The date bounds are inclusive: with both bounds readable, an entry
    created at [c] gets past the two date tests exactly when
    [dateFrom <= c <= dateTo]; an entry created at the very time of a bound
    passes. *)
Theorem date_filter_inclusive
  (q : SearchQuery) (file : FileEntry) (c a b : Z) (from to : string) :
  created <$> record file = Some c ->
  dateFrom q = Some from -> from <> "" -> Date_parse from = Some a ->
  dateTo q = Some to -> to <> "" -> Date_parse to = Some b ->
  (dateFrom_rejects q file = false /\ dateTo_rejects q file = false) <-> a <= c <= b.
Proof.
  intros Hc Hfrom Hf Ha Hto Ht Hb. unfold dateFrom_rejects, dateTo_rejects.
  rewrite Hfrom, Hto, !truthy_value_nonempty, Ha, Hb, Hc by done.
  rewrite lt_false_iff, gt_false_iff. tauto.
Qed.

End SearchMore.

Section PatchMore.
Context `{engine : Builtins} (env : Env).
Import Json.

(** After an update answered with 200 the metadata route answers with the
    very record the update returned, and sending the same body again
    changes the value of no key. *)
Theorem metadata_after_patch
  (name : string) (req_body : JSValue) (w : World) (current : Metadata) :
  Fs.exists_in (PFile (stored env name)) w = true ->
  fileMetadata w !! name = Some current ->
  exists updated w1,
    patch_file_metadata env name req_body w = (json (BMetadata updated), w1)
    /\ get_file_metadata env name w1 = (json (BMetadata updated), w1)
    /\ exists again w2,
         patch_file_metadata env name req_body w1 = (json (BMetadata again), w2)
         /\ forall k,
              get_prop k (own_props (customMetadata again))
              = get_prop k (own_props (customMetadata updated)).
Proof.
  intros Hfile Hrecord.
  assert (Hpatch : forall w0 m,
            Fs.exists_in (PFile (stored env name)) w0 = true ->
            fileMetadata w0 !! name = Some m ->
            patch_file_metadata env name req_body w0
            = (json (BMetadata
                       {| size := size m; created := created m; modified := modified m;
                          type := type m; originalName := originalName m;
                          customMetadata := spread2 (customMetadata m) req_body |}),
               {| dirs := dirs w0;
                  fileMetadata :=
                    <[name := {| size := size m; created := created m;
                                 modified := modified m; type := type m;
                                 originalName := originalName m;
                                 customMetadata := spread2 (customMetadata m) req_body |}]>
                      (fileMetadata w0) |})).
  { intros w0 m Hf Hm. unfold patch_file_metadata. run_handler.
    rewrite Hf. cbn. rewrite Hm. reflexivity. }
  do 2 eexists. split; [by apply Hpatch|]. split.
  - unfold get_file_metadata. run_handler.
    change (Fs.exists_in (PFile (stored env name)) _)
      with (Fs.exists_in (PFile (stored env name)) w).
    rewrite Hfile. cbn. by rewrite lookup_insert_eq.
  - do 2 eexists. split.
    + apply Hpatch; [exact Hfile | cbn; apply lookup_insert_eq].
    + intros k. cbn [customMetadata]. rewrite !spread2_spec.
      by destruct (get_prop k (own_props req_body)).
Qed.

End PatchMore.

Section Invariant.
Context `{engine : Builtins} (env : Env).
Import Json.

Lemma exists_in_written (name other : string) (st : Stats) (d : Dir) (w : World) :
  Fs.exists_in (PFile {| dirname := cwdUploads env; basename := other |})
    {| dirs := <[cwdUploads env := Fs.put_file name st d]> (dirs w);
       fileMetadata := fileMetadata w |}
  = bool_decide (other = name) || bool_decide (is_Some (Fs.lookup_file other d)).
Proof.
  cbn -[Fs.lookup_file Fs.put_file]. rewrite lookup_insert_eq.
  destruct (decide (other = name)) as [->|Hne].
  - rewrite lookup_file_put, bool_decide_eq_true_2 by done.
    by rewrite bool_decide_eq_true_2.
  - rewrite lookup_file_put_ne by done.
    by rewrite (bool_decide_eq_false_2 (other = name)).
Qed.

Lemma post_upload_keeps_records_have_files
  (io : IO) (req : UploadRequest) (w : World) :
  records_have_files env w -> records_have_files env (snd (post_upload env io req w)).
Proof.
  intros Hinv. unfold post_upload.
  destruct (req_file req) as [part|]; [|exact Hinv].
  unfold upload_single, storage_destination, Fs.writeFile, upload_handler, getFileMetadata.
  run_handler. cbn -[Fs.lookup_file Fs.put_file].
  set (name := storage_filename io part).
  assert (Hwritten : forall d fm st,
            (forall other, is_Some (fm !! other) ->
               other = name \/ (is_Some (fileMetadata w !! other)
                                /\ (is_Some (dirs w !! cwdUploads env)
                                    -> dirs w !! cwdUploads env = Some d))) ->
            (dirs w !! cwdUploads env = None -> d = []) ->
            records_have_files env
              {| dirs := <[cwdUploads env := Fs.put_file name st d]> (dirs w);
                 fileMetadata := fm |}).
  { intros d fm st Hfm Hd other Hother.
    pose proof (exists_in_written name other st d
                  {| dirs := dirs w; fileMetadata := fm |}) as Hex.
    cbn [dirs fileMetadata] in Hex. rewrite Hex.
    destruct (Hfm other Hother) as [->|[Hold Hdir]].
    - by rewrite bool_decide_eq_true_2.
    - apply Hinv in Hold. apply exists_in_file in Hold as (d' & Hd' & Hfile).
      cbn in Hd', Hfile. rewrite Hdir in Hd' by (by rewrite Hd').
      injection Hd' as <-. rewrite (bool_decide_eq_true_2 _ Hfile). apply orb_true_r. }
  destruct (dirs w !! cwdUploads env) as [d|] eqn:Hd; cbn -[Fs.lookup_file Fs.put_file].
  - destruct (write_error io); cbn -[Fs.lookup_file Fs.put_file]; [exact Hinv|].
    rewrite Hd. cbn -[Fs.lookup_file Fs.put_file].
    destruct (stat_error io); cbn -[Fs.lookup_file Fs.put_file].
    + apply Hwritten; [|done]. intros other Hother. right. by split.
    + rewrite lookup_insert_eq. cbn -[Fs.lookup_file Fs.put_file].
      rewrite lookup_file_put. cbn -[Fs.lookup_file Fs.put_file].
      destruct (JS.truthy_value (req_metadata req)) as [text|];
        [destruct (JSON_parse text)|]; cbn -[Fs.lookup_file Fs.put_file].
      * apply Hwritten; [|done]. intros other Hother.
        destruct (decide (other = name)) as [->|Hne]; [by left|].
        rewrite lookup_insert_ne in Hother by done. right. by split.
      * apply Hwritten; [|done]. intros other Hother. right. by split.
      * apply Hwritten; [|done]. intros other Hother.
        destruct (decide (other = name)) as [->|Hne]; [by left|].
        rewrite lookup_insert_ne in Hother by done. right. by split.
  - assert (Hnone : forall other, ~ is_Some (fileMetadata w !! other)).
    { intros other Hother. apply Hinv in Hother.
      apply exists_in_file in Hother as (d' & Hd' & _). cbn in Hd'. congruence. }
    destruct (mkdir_error io); cbn -[Fs.lookup_file Fs.put_file]; [exact Hinv|].
    rewrite Hd. cbn -[Fs.lookup_file Fs.put_file].
    destruct (write_error io); cbn -[Fs.lookup_file Fs.put_file].
    + intros other Hother. by destruct (Hnone other).
    + rewrite lookup_insert_eq. cbn -[Fs.lookup_file Fs.put_file].
      unfold Fs.set_dir. cbn -[Fs.lookup_file Fs.put_file]. rewrite insert_insert_eq.
      destruct (stat_error io); cbn -[Fs.lookup_file Fs.put_file].
      * intros other Hother. by destruct (Hnone other).
      * rewrite lookup_insert_eq. cbn -[Fs.lookup_file Fs.put_file].
        rewrite lookup_file_put. cbn -[Fs.lookup_file Fs.put_file].
        destruct (JS.truthy_value (req_metadata req)) as [text|];
          [destruct (JSON_parse text)|]; cbn -[Fs.lookup_file Fs.put_file].
        -- apply Hwritten; [|done]. intros other Hother.
           destruct (decide (other = name)) as [->|Hne]; [by left|].
           rewrite lookup_insert_ne in Hother by done. by destruct (Hnone other).
        -- intros other Hother. by destruct (Hnone other).
        -- apply Hwritten; [|done]. intros other Hother.
           destruct (decide (other = name)) as [->|Hne]; [by left|].
           rewrite lookup_insert_ne in Hother by done. by destruct (Hnone other).
Qed.

Lemma delete_file_keeps_records_have_files (io : IO) (name : string) (w : World) :
  records_have_files env w -> records_have_files env (snd (delete_file env io name w)).
Proof.
  intros Hinv. unfold delete_file. run_handler. cbn -[Fs.lookup_file Fs.remove_file].
  destruct (dirs w !! appUploads env) as [d|] eqn:Hd;
    cbn -[Fs.lookup_file Fs.remove_file]; [|exact Hinv].
  destruct (bool_decide (is_Some (Fs.lookup_file name d))) eqn:Hf;
    cbn -[Fs.lookup_file Fs.remove_file]; [|exact Hinv].
  destruct (unlink_error io); cbn -[Fs.lookup_file Fs.remove_file]; [exact Hinv|].
  rewrite Hd, Hf. cbn -[Fs.lookup_file Fs.remove_file].
  intros other Hother. cbn [fileMetadata] in Hother.
  destruct (decide (other = name)) as [->|Hne].
  { rewrite lookup_delete_eq in Hother. by destruct Hother. }
  rewrite lookup_delete_ne in Hother by done.
  apply Hinv in Hother. apply exists_in_file in Hother as (d' & Hd' & Hfile).
  cbn in Hd', Hfile. apply exists_in_file. cbn -[Fs.lookup_file Fs.remove_file].
  destruct (decide (cwdUploads env = appUploads env)) as [Hsame|Hdiff].
  - rewrite Hsame, lookup_insert_eq. rewrite Hsame, Hd in Hd'. injection Hd' as <-.
    eexists. split; [reflexivity|]. by rewrite lookup_file_remove_ne.
  - rewrite lookup_insert_ne by done. by exists d'.
Qed.

Lemma patch_keeps_records_have_files (name : string) (req_body : JSValue) (w : World) :
  records_have_files env w ->
  records_have_files env (snd (patch_file_metadata env name req_body w)).
Proof.
  intros Hinv. unfold patch_file_metadata. run_handler.
  destruct (Fs.exists_in _ w); cbn; [|exact Hinv].
  destruct (fileMetadata w !! name) as [current|] eqn:Hcurrent; cbn; [|exact Hinv].
  intros other Hother. cbn [fileMetadata] in Hother.
  apply (Hinv other). destruct (decide (other = name)) as [->|Hne].
  - by rewrite Hcurrent.
  - by rewrite lookup_insert_ne in Hother.
Qed.

Lemma get_health_keeps_records_have_files (io : IO) (w : World) :
  records_have_files env w -> records_have_files env (snd (get_health env io w)).
Proof.
  intros Hinv. unfold get_health. run_handler. cbn.
  destruct (dirs w !! appUploads env) as [d|] eqn:Hd; cbn; [exact Hinv|].
  destruct (mkdir_error io); cbn; [exact Hinv|]. rewrite Hd. cbn.
  intros other Hother. cbn [fileMetadata] in Hother.
  apply Hinv in Hother. apply exists_in_file in Hother as (d' & Hd' & Hfile).
  cbn in Hd', Hfile. apply exists_in_file. cbn -[Fs.lookup_file].
  rewrite lookup_insert_ne by congruence. by exists d'.
Qed.

Lemma respond_keeps_records_have_files (io : IO) (req : Request) (w : World) :
  records_have_files env w -> records_have_files env (snd (respond env io req w)).
Proof.
  intros Hinv. destruct req; cbn [respond snd].
  - by apply post_upload_keeps_records_have_files.
  - by rewrite get_files_state.
  - by rewrite get_files_search_state.
  - by rewrite get_file_metadata_state.
  - by apply patch_keeps_records_have_files.
  - by rewrite get_download_state.
  - by apply delete_file_keeps_records_have_files.
  - by apply get_health_keeps_records_have_files.
Qed.

(** The application never leaves a record without its file, as long as
    the file name of every request is one path segment: started with an
    empty metadata map (as every process is) over any content of the disk,
    after any sequence of such requests, whatever the host answers to the
    file-system calls, every record of [fileMetadata] has its file in the
    directory that uploads are written to. *)
Theorem records_always_have_files (trace : list (IO * Request)) (w : World) :
  fileMetadata w = ∅ ->
  forallb (fun step => plain_request (snd step)) trace = true ->
  records_have_files env (serve_all env trace w).
Proof.
  intros Hempty _.
  assert (Hstart : records_have_files env w).
  { intros name Hname. rewrite Hempty, lookup_empty in Hname. by destruct Hname. }
  clear Hempty. revert w Hstart.
  induction trace as [|[io req] trace IH]; intros w Hinv; [exact Hinv|].
  cbn [serve_all]. apply IH. by apply respond_keeps_records_have_files.
Qed.

End Invariant.

(** ** Runs on the reference engine *)

#[local] Existing Instance Reference.engine.

(** C1 fails as stated: with [dateFrom=not-a-date], which [Date.parse]
    cannot read, the search over a directory holding one uploaded file
    answers 200 with that file in the list; the entry is not excluded. *)
Lemma unparseable_dateFrom_counterexample :
  Date_parse "not-a-date" = None
  /\ JS.lt (created <$> record Run.report_entry) (Date_parse "not-a-date") = false
  /\ get_files_search Run.env Run.io (Spec.with_dateFrom (Some "not-a-date") Run.any)
       Run.one_file
     = (json (BFiles [Run.report_entry]), Run.one_file).
Proof.
  split; [reflexivity|]. split; [reflexivity|]. vm_compute. reflexivity.
Qed.

Lemma unparseable_date_bound_run :
  get_files_search Run.env Run.io (Spec.with_dateFrom (Some "not-a-date") Run.any) Run.one_file
  = get_files_search Run.env Run.io (Spec.with_dateFrom None Run.any) Run.one_file.
Proof.
  apply (unparseable_date_bound_excludes_nothing
           Run.env Run.io Run.any "not-a-date" Run.one_file).
  reflexivity.
Defined.

Lemma unparseable_size_bound_run :
  get_files_search Run.env Run.io (Spec.with_minSize (Some "large") Run.any) Run.one_file
  = get_files_search Run.env Run.io (Spec.with_minSize None Run.any) Run.one_file.
Proof.
  apply (unparseable_size_bound_excludes_nothing
           Run.env Run.io Run.any "large" Run.one_file).
  reflexivity.
Defined.

(** C8 fails as stated for a bound that is a number but not an integer:
    [minSize=10.5] denotes 10.5, the entry of size 10 is below it, and yet
    it passes both size tests and is in the answer, because [parseInt]
    reads the bound as 10. *)
Lemma fractional_minSize_counterexample :
  Spec.decimal_numeral "10.5" = Some (105 # 10)%Q
  /\ size <$> record Run.report_entry = Some 10
  /\ ~ (105 # 10 <= inject_Z 10)%Q
  /\ minSize_rejects (Spec.with_minSize (Some "10.5") Run.any) Run.report_entry = false
  /\ maxSize_rejects (Spec.with_minSize (Some "10.5") Run.any) Run.report_entry = false
  /\ get_files_search Run.env Run.io (Spec.with_minSize (Some "10.5") Run.any) Run.one_file
     = (json (BFiles [Run.report_entry]), Run.one_file).
Proof.
  split; [reflexivity|]. split; [reflexivity|]. split; [by vm_compute|].
  split; [reflexivity|]. split; [reflexivity|]. vm_compute. reflexivity.
Qed.

Lemma size_filter_inclusive_run :
  (minSize_rejects (Spec.with_maxSize (Some "10") (Spec.with_minSize (Some "10") Run.any))
     Run.report_entry = false
   /\ maxSize_rejects (Spec.with_maxSize (Some "10") (Spec.with_minSize (Some "10") Run.any))
        Run.report_entry = false)
  <-> (Spec.at_least (Some 10) 10 /\ Spec.at_most (Some 10) 10).
Proof.
  apply (size_filter_inclusive
           (Spec.with_maxSize (Some "10") (Spec.with_minSize (Some "10") Run.any))
           Run.report_entry 10 (Some 10) (Some 10)); reflexivity.
Defined.

(** The failing input of C2: after a restart the directory holds the stored
    file and the map is empty; a search for [invoice] answers 500, while the
    plain listing of the same state answers 200 with the bare entry. *)
Lemma search_fails_on_unmatched_orphan_run :
  get_files_search Run.env Run.io
    {| query := Some "invoice"; qtype := None; minSize := None; maxSize := None;
       dateFrom := None; dateTo := None |}
    Run.orphan
  = (status_json 500 (BError "Error searching files"), Run.orphan).
Proof.
  apply (search_fails_on_unmatched_orphan Run.env Run.io _ Run.orphan
           [(Run.stored_report,
             {| stat_size := 10; birthtime := 1700000000001; mtime := 1700000000002 |})]
           "invoice" Run.stored_report).
  - reflexivity.
  - vm_compute. reflexivity.
  - left. reflexivity.
  - reflexivity.
  - reflexivity.
  - vm_compute. reflexivity.
Defined.

(** C3 fails as stated: an upload of a file with the field [metadata={tag],
    which is not JSON, is answered with 500, not 400. *)
Lemma malformed_metadata_counterexample :
  JSON_parse "{tag" = None
  /\ fst (post_upload Run.env Run.io Run.upload_malformed Run.fresh)
     = Responded (status_json 500 (BError "Error uploading file"))
  /\ status (status_json 500 (BError "Error uploading file")) <> 400.
Proof.
  split; [vm_compute; reflexivity|]. split; [vm_compute; reflexivity|]. done.
Qed.

Lemma malformed_metadata_response_run :
  upload_handler Run.io
    (Some {| ReqFile.originalname := "report.txt";
             ReqFile.filename := Run.stored_report;
             ReqFile.path := {| dirname := "/srv/app/uploads";
                                basename := Run.stored_report |} |})
    (Some "{tag") Run.orphan
  = (status_json 500 (BError "Error uploading file"), Run.orphan)
  /\ (forall (io0 : IO) (file0 : option ReqFile.t) (field : option string) (w0 : World),
        status (fst (upload_handler io0 file0 field w0)) = 400 <-> file0 = None)
  /\ (forall (io0 : IO) (req : UploadRequest) (w0 w1 : World) (r : Response),
        post_upload Run.env io0 req w0 = (Responded r, w1) ->
        (status r = 400 <-> req_file req = None))
  /\ (forall (io0 : IO) (req : UploadRequest) (w0 : World),
        req_file req = None ->
        post_upload Run.env io0 req w0
        = (Responded (status_json 400 (BError "No file uploaded")), w0)).
Proof.
  apply (malformed_metadata_response Run.env Run.io
           (Some {| ReqFile.originalname := "report.txt";
                    ReqFile.filename := Run.stored_report;
                    ReqFile.path := {| dirname := "/srv/app/uploads";
                                       basename := Run.stored_report |} |})
           "{tag" Run.orphan).
  - discriminate.
  - vm_compute. reflexivity.
Defined.

Lemma malformed_metadata_leaves_orphan_run :
  post_upload Run.env Run.io Run.upload_malformed Run.fresh
  = (Responded (status_json 500 (BError "Error uploading file")), Run.orphan)
  /\ fileMetadata Run.orphan = fileMetadata Run.fresh
  /\ Fs.exists_in
       (PFile {| dirname := cwdUploads Run.env;
                 basename := storage_filename Run.io Run.report |}) Run.orphan
     = true.
Proof.
  apply (malformed_metadata_leaves_orphan Run.env Run.io Run.upload_malformed Run.report
           "{tag" Run.fresh Run.orphan
           (Some {| ReqFile.originalname := "report.txt";
                    ReqFile.filename := Run.stored_report;
                    ReqFile.path := {| dirname := "/srv/app/uploads";
                                       basename := Run.stored_report |} |})).
  - reflexivity.
  - reflexivity.
  - discriminate.
  - vm_compute. reflexivity.
  - vm_compute. reflexivity.
Defined.

Lemma list_after_upload_run :
  exists part name metadata,
    req_file Run.upload_plain = Some part
    /\ body (json (BUploaded Run.stored_report Run.report_metadata)) = BUploaded name metadata
    /\ get_files Run.env Run.io Run.one_file
       = (json (BFiles [{| filename := name; record := Some metadata |}]), Run.one_file)
    /\ originalName metadata = part_originalname part.
Proof.
  apply (list_after_upload Run.env Run.io Run.io Run.upload_plain Run.fresh Run.one_file
           (json (BUploaded Run.stored_report Run.report_metadata))).
  - reflexivity.
  - vm_compute. reflexivity.
  - reflexivity.
  - reflexivity.
Defined.


Lemma not_found_after_delete_run :
  get_file_metadata Run.env Run.stored_report
    (snd (delete_file Run.env Run.io Run.stored_report Run.one_file))
  = (Spec.not_found, snd (delete_file Run.env Run.io Run.stored_report Run.one_file))
  /\ get_download Run.env Run.stored_report
       (snd (delete_file Run.env Run.io Run.stored_report Run.one_file))
     = (Spec.not_found, snd (delete_file Run.env Run.io Run.stored_report Run.one_file)).
Proof.
  destruct (not_found_after_delete Run.env Run.io Run.stored_report Run.one_file
              (json (BMessage "File deleted successfully"))
              (snd (delete_file Run.env Run.io Run.stored_report Run.one_file)))
    as [(Hmeta & Hdown & _) _].
  - vm_compute. reflexivity.
  - reflexivity.
  - split; [exact Hmeta | exact Hdown].
Defined.

Lemma health_creates_directory_run :
  fst (get_health Run.env Run.io Run.fresh) = status_json 200 (BHealthy 1700000000000)
  /\ Fs.exists_in (PDir (appUploads Run.env)) Run.fresh = false
  /\ Fs.exists_in (PDir (appUploads Run.env)) (snd (get_health Run.env Run.io Run.fresh)) = true.
Proof.
  destruct (health_creates_directory Run.env Run.io Run.fresh
              (fst (get_health Run.env Run.io Run.fresh))
              (snd (get_health Run.env Run.io Run.fresh))) as [Hok _].
  - vm_compute. reflexivity.
  - destruct Hok as [Hr Hdir]; [left; reflexivity|].
    split; [exact Hr|]. split; [reflexivity | exact Hdir].
Defined.

(** ** Runs for the further properties *)

Lemma upload_stores_file_and_record_run :
  exists metadata st w1,
    post_upload Run.env Run.io
      {| req_file := Some Run.report; req_metadata := Some "[1, true]" |} Run.fresh
    = (Responded (json (BUploaded (storage_filename Run.io Run.report) metadata)), w1)
    /\ dirs w1 !! cwdUploads Run.env ≫= Fs.lookup_file (storage_filename Run.io Run.report)
       = Some st
    /\ stat_size st = part_bytes Run.report
    /\ size metadata = part_bytes Run.report
    /\ created metadata = birthtime st
    /\ modified metadata = mtime st
    /\ originalName metadata = part_originalname Run.report
    /\ customMetadata metadata = Json.JArr [Json.JNum "1"; Json.JBool true]
    /\ fileMetadata w1
       = <[storage_filename Run.io Run.report := metadata]> (fileMetadata Run.fresh)
    /\ Fs.exists_in
         (PFile {| dirname := cwdUploads Run.env;
                   basename := storage_filename Run.io Run.report |}) w1
       = true.
Proof.
  apply (upload_stores_file_and_record Run.env Run.io
           {| req_file := Some Run.report; req_metadata := Some "[1, true]" |}
           Run.report (Json.JArr [Json.JNum "1"; Json.JBool true]) Run.fresh).
  - reflexivity.
  - reflexivity.
  - reflexivity.
  - left. reflexivity.
  - vm_compute. reflexivity.
Defined.

Lemma metadata_after_upload_run :
  exists name metadata,
    body (json (BUploaded Run.stored_report Run.report_metadata)) = BUploaded name metadata
    /\ get_file_metadata Run.env name Run.one_file = (json (BMetadata metadata), Run.one_file).
Proof.
  apply (metadata_after_upload Run.env Run.io Run.upload_plain Run.fresh Run.one_file
           (json (BUploaded Run.stored_report Run.report_metadata))).
  - reflexivity.
  - vm_compute. reflexivity.
  - reflexivity.
Defined.

Lemma upload_overwrites_taken_name_run :
  exists d1 st metadata,
    dirs (snd (post_upload Run.env Run.io
                 {| req_file := Some RunMore.short_report; req_metadata := None |}
                 RunMore.two_files))
      !! cwdUploads Run.env = Some d1
    /\ map fst d1 = map fst [(RunMore.old_name,
                              {| stat_size := 4; birthtime := 1600000000001;
                                 mtime := 1600000000002 |});
                             (Run.stored_report,
                              {| stat_size := 10; birthtime := 1700000000001;
                                 mtime := 1700000000002 |})]
    /\ Fs.lookup_file (storage_filename Run.io RunMore.short_report) d1 = Some st
    /\ stat_size st = part_bytes RunMore.short_report
    /\ (forall other, other <> storage_filename Run.io RunMore.short_report ->
          Fs.lookup_file other d1
          = Fs.lookup_file other
              [(RunMore.old_name,
                {| stat_size := 4; birthtime := 1600000000001; mtime := 1600000000002 |});
               (Run.stored_report,
                {| stat_size := 10; birthtime := 1700000000001;
                   mtime := 1700000000002 |})])
    /\ body (json (BUploaded Run.stored_report
                     {| size := 3; created := 1700000000001; modified := 1700000000002;
                        type := "txt"; originalName := "report.txt";
                        customMetadata := Json.JObj [] |}))
       = BUploaded (storage_filename Run.io RunMore.short_report) metadata
    /\ size metadata = part_bytes RunMore.short_report
    /\ fileMetadata (snd (post_upload Run.env Run.io
                            {| req_file := Some RunMore.short_report; req_metadata := None |}
                            RunMore.two_files))
         !! storage_filename Run.io RunMore.short_report = Some metadata.
Proof.
  apply (upload_overwrites_taken_name Run.env Run.io
           {| req_file := Some RunMore.short_report; req_metadata := None |}
           RunMore.short_report
           [(RunMore.old_name,
             {| stat_size := 4; birthtime := 1600000000001; mtime := 1600000000002 |});
            (Run.stored_report,
             {| stat_size := 10; birthtime := 1700000000001; mtime := 1700000000002 |})]
           {| stat_size := 10; birthtime := 1700000000001; mtime := 1700000000002 |}
           RunMore.two_files
           (snd (post_upload Run.env Run.io
                   {| req_file := Some RunMore.short_report; req_metadata := None |}
                   RunMore.two_files))
           (json (BUploaded Run.stored_report
                    {| size := 3; created := 1700000000001; modified := 1700000000002;
                       type := "txt"; originalName := "report.txt";
                       customMetadata := Json.JObj [] |}))).
  - vm_compute. reflexivity.
  - reflexivity.
  - reflexivity.
  - vm_compute. reflexivity.
  - vm_compute. reflexivity.
Defined.

Lemma type_is_last_extension_run :
  exists part name metadata,
    req_file {| req_file := Some {| part_originalname := ".env"; part_bytes := 3 |};
                req_metadata := None |} = Some part
    /\ body (json (BUploaded "1700000000000-.env"
                     {| size := 3; created := 1700000000001; modified := 1700000000002;
                        type := "env"; originalName := ".env";
                        customMetadata := Json.JObj [] |}))
       = BUploaded name metadata
    /\ type metadata
       = match last_extension (part_originalname part) with
         | Some ext => if String.eqb ext "" then "unknown" else ext
         | None => "unknown"
         end.
Proof.
  apply (type_is_last_extension Run.env Run.io
           {| req_file := Some {| part_originalname := ".env"; part_bytes := 3 |};
              req_metadata := None |}
           Run.fresh
           (snd (post_upload Run.env Run.io
                   {| req_file := Some {| part_originalname := ".env"; part_bytes := 3 |};
                      req_metadata := None |} Run.fresh))).
  - vm_compute. reflexivity.
  - reflexivity.
Defined.

Lemma upload_then_delete_leaves_nothing_run :
  exists name metadata w2,
    body (json (BUploaded Run.stored_report Run.report_metadata)) = BUploaded name metadata
    /\ delete_file Run.env Run.io name Run.one_file
       = (json (BMessage "File deleted successfully"), w2)
    /\ fileMetadata w2 !! name = None
    /\ get_files Run.env Run.io w2 = (json (BFiles []), w2).
Proof.
  apply (upload_then_delete_leaves_nothing Run.env Run.io Run.io Run.io
           Run.upload_plain Run.fresh Run.one_file
           (json (BUploaded Run.stored_report Run.report_metadata))).
  - reflexivity.
  - reflexivity.
  - vm_compute. reflexivity.
  - reflexivity.
  - reflexivity.
  - reflexivity.
Defined.

Lemma delete_all_or_nothing_run :
  (status (json (BMessage "File deleted successfully")) = 200
   /\ Fs.exists_in (PFile (stored Run.env Run.stored_report)) Run.one_file = true
   /\ unlink_error Run.io = None
   /\ Fs.exists_in (PFile (stored Run.env Run.stored_report))
        (snd (delete_file Run.env Run.io Run.stored_report Run.one_file)) = false
   /\ fileMetadata (snd (delete_file Run.env Run.io Run.stored_report Run.one_file))
      = delete Run.stored_report (fileMetadata Run.one_file))
  \/ (status (json (BMessage "File deleted successfully")) = 404
      /\ Fs.exists_in (PFile (stored Run.env Run.stored_report)) Run.one_file = false
      /\ snd (delete_file Run.env Run.io Run.stored_report Run.one_file) = Run.one_file)
  \/ (status (json (BMessage "File deleted successfully")) = 500
      /\ Fs.exists_in (PFile (stored Run.env Run.stored_report)) Run.one_file = true
      /\ is_Some (unlink_error Run.io)
      /\ snd (delete_file Run.env Run.io Run.stored_report Run.one_file) = Run.one_file).
Proof.
  apply (delete_all_or_nothing Run.env Run.io Run.stored_report Run.one_file
           (json (BMessage "File deleted successfully"))
           (snd (delete_file Run.env Run.io Run.stored_report Run.one_file))).
  - vm_compute. reflexivity.
  - vm_compute. reflexivity.
Defined.

Lemma delete_keeps_other_files_run :
  fileMetadata (snd (delete_file Run.env Run.io Run.stored_report RunMore.two_files))
    !! RunMore.old_name
  = fileMetadata RunMore.two_files !! RunMore.old_name
  /\ forall dir,
       dirs (snd (delete_file Run.env Run.io Run.stored_report RunMore.two_files)) !! dir
         ≫= Fs.lookup_file RunMore.old_name
       = dirs RunMore.two_files !! dir ≫= Fs.lookup_file RunMore.old_name.
Proof.
  apply (delete_keeps_other_files Run.env Run.io Run.stored_report RunMore.old_name
           RunMore.two_files (json (BMessage "File deleted successfully"))
           (snd (delete_file Run.env Run.io Run.stored_report RunMore.two_files))).
  - vm_compute. reflexivity.
  - vm_compute. reflexivity.
  - discriminate.
Defined.

Lemma file_without_record_run :
  get_file_metadata Run.env Run.stored_report Run.orphan
  = (status_json 404 (BError "File metadata not found"), Run.orphan)
  /\ patch_file_metadata Run.env Run.stored_report (Json.JObj []) Run.orphan
     = (status_json 404 (BError "File metadata not found"), Run.orphan)
  /\ get_download Run.env Run.stored_report Run.orphan
     = (json (BAttachment (stored Run.env Run.stored_report)), Run.orphan).
Proof.
  apply (file_without_record Run.env Run.stored_report (Json.JObj []) Run.orphan).
  - vm_compute. reflexivity.
  - reflexivity.
Defined.

Lemma health_keeps_directories_run :
  (forall dir d,
     dirs Run.one_file !! dir = Some d ->
     dirs (snd (get_health Run.env Run.io Run.one_file)) !! dir = Some d)
  /\ (forall dir,
        dir <> appUploads Run.env ->
        dirs (snd (get_health Run.env Run.io Run.one_file)) !! dir = dirs Run.one_file !! dir)
  /\ (status (status_json 200 (BHealthy 1700000000000)) = 200 ->
      forall io',
        get_health Run.env io' (snd (get_health Run.env Run.io Run.one_file))
        = (status_json 200 (BHealthy (now io')),
           snd (get_health Run.env Run.io Run.one_file))).
Proof.
  apply (health_keeps_directories Run.env Run.io Run.one_file
           (status_json 200 (BHealthy 1700000000000))
           (snd (get_health Run.env Run.io Run.one_file))).
  vm_compute. reflexivity.
Defined.

Lemma search_without_filters_is_list_run :
  get_files_search Run.env Run.io Run.any Run.one_file = get_files Run.env Run.io Run.one_file.
Proof.
  apply (search_without_filters_is_list Run.env Run.io Run.any Run.one_file).
  - repeat split.
  - reflexivity.
Defined.

Lemma search_results_are_filtered_listing_run :
  exists entries,
    get_files Run.env Run.io Run.one_file = (json (BFiles entries), Run.one_file)
    /\ sublist [Run.report_entry] entries
    /\ forall file,
         In file [Run.report_entry]
         <-> In file entries
             /\ search_filter (with_query (Some "REPORT") Run.any) file = Ok true.
Proof.
  apply (search_results_are_filtered_listing Run.env Run.io
           (with_query (Some "REPORT") Run.any) Run.one_file
           (json (BFiles [Run.report_entry])) Run.one_file [Run.report_entry]).
  - vm_compute. reflexivity.
  - reflexivity.
Defined.

Lemma type_filter_returns_only_that_type_run :
  exists metadata, record Run.report_entry = Some metadata /\ type metadata = "txt".
Proof.
  apply (type_filter_returns_only_that_type Run.env Run.io
           {| query := None; qtype := Some "txt"; minSize := None; maxSize := None;
              dateFrom := None; dateTo := None |}
           "txt" Run.one_file (json (BFiles [Run.report_entry])) Run.one_file
           [Run.report_entry] Run.report_entry).
  - vm_compute. reflexivity.
  - reflexivity.
  - reflexivity.
  - discriminate.
  - left. reflexivity.
Defined.

Lemma query_ignores_case_run :
  get_files_search Run.env Run.io (with_query (Some "REPORT") Run.any) Run.one_file
  = get_files_search Run.env Run.io (with_query (Some "report") Run.any) Run.one_file.
Proof.
  apply (query_ignores_case Run.env Run.io Run.any "REPORT" "report" Run.one_file).
  reflexivity.
Defined.

Lemma orphan_passes_size_and_date_bounds_run :
  exists results,
    get_files_search Run.env Run.io
      {| query := None; qtype := None; minSize := Some "999999999"; maxSize := Some "1";
         dateFrom := Some "2999-01-01"; dateTo := Some "1970-01-01" |}
      Run.orphan
    = (json (BFiles results), Run.orphan)
    /\ In {| filename := Run.stored_report; record := None |} results.
Proof.
  apply (orphan_passes_size_and_date_bounds Run.env Run.io
           {| query := None; qtype := None; minSize := Some "999999999"; maxSize := Some "1";
              dateFrom := Some "2999-01-01"; dateTo := Some "1970-01-01" |}
           Run.orphan
           [(Run.stored_report,
             {| stat_size := 10; birthtime := 1700000000001; mtime := 1700000000002 |})]
           Run.stored_report).
  - reflexivity.
  - vm_compute. reflexivity.
  - left. reflexivity.
  - reflexivity.
  - reflexivity.
  - reflexivity.
Defined.

Lemma date_filter_inclusive_run :
  (dateFrom_rejects
     {| query := None; qtype := None; minSize := None; maxSize := None;
        dateFrom := Some "2023-11-14"; dateTo := Some "2023-11-15" |} Run.report_entry = false
   /\ dateTo_rejects
        {| query := None; qtype := None; minSize := None; maxSize := None;
           dateFrom := Some "2023-11-14"; dateTo := Some "2023-11-15" |} Run.report_entry
      = false)
  <-> 1699920000000 <= 1700000000001 <= 1700006400000.
Proof.
  apply (date_filter_inclusive
           {| query := None; qtype := None; minSize := None; maxSize := None;
              dateFrom := Some "2023-11-14"; dateTo := Some "2023-11-15" |}
           Run.report_entry 1700000000001 1699920000000 1700006400000
           "2023-11-14" "2023-11-15").
  - reflexivity.
  - reflexivity.
  - discriminate.
  - vm_compute. reflexivity.
  - reflexivity.
  - discriminate.
  - vm_compute. reflexivity.
Defined.

Lemma metadata_after_patch_run :
  exists updated w1,
    patch_file_metadata Run.env Run.stored_report (Json.JObj [("tag", Json.JStr "y")])
      Run.one_file
    = (json (BMetadata updated), w1)
    /\ get_file_metadata Run.env Run.stored_report w1 = (json (BMetadata updated), w1)
    /\ exists again w2,
         patch_file_metadata Run.env Run.stored_report (Json.JObj [("tag", Json.JStr "y")]) w1
         = (json (BMetadata again), w2)
         /\ forall k,
              Json.get_prop k (Json.own_props (customMetadata again))
              = Json.get_prop k (Json.own_props (customMetadata updated)).
Proof.
  apply (metadata_after_patch Run.env Run.stored_report (Json.JObj [("tag", Json.JStr "y")])
           Run.one_file Run.report_metadata).
  - vm_compute. reflexivity.
  - vm_compute. reflexivity.
Defined.

Lemma records_always_have_files_run :
  records_have_files Run.env
    (serve_all Run.env
       [(Run.io, PostUpload Run.upload_malformed);
        (Run.io, PostUpload Run.upload_plain);
        (Run.io, PatchFileMetadata Run.stored_report (Json.JObj [("tag", Json.JStr "y")]));
        (Run.io, DeleteFile "1600000000000-old.txt");
        (Run.io, GetHealth);
        (Run.io, DeleteFile Run.stored_report)]
       Run.fresh).
Proof.
  apply (records_always_have_files Run.env
           [(Run.io, PostUpload Run.upload_malformed);
            (Run.io, PostUpload Run.upload_plain);
            (Run.io, PatchFileMetadata Run.stored_report (Json.JObj [("tag", Json.JStr "y")]));
            (Run.io, DeleteFile "1600000000000-old.txt");
            (Run.io, GetHealth);
            (Run.io, DeleteFile Run.stored_report)]
           Run.fresh).
  - reflexivity.
  - vm_compute. reflexivity.
Defined.
